(** * Modal VFX render farm (renderFarm.py): a shallow embedding

    The development follows [src/renderFarm.py]:

    - [PyStr]: the Python string and [posixpath] primitives the add-on calls
      ([str.replace] with a one-character pattern, the [04d] format
      specifier, [os.path.join], [os.path.basename], [os.path.dirname],
      [os.path.splitext]);
    - [PyDict]: insertion-ordered dictionaries, as association lists;
    - [Tracker]: the [AssetTracker] table, a finite map keyed by path;
    - [Redirect]: the capture / redirect / render / restore sequence of
      [render_frame];
    - [Farm]: the submit operator [ModalVFXRenderFarmOperator.execute], the
      reconciliation [_process_rendered_files] and [upload_to_dropbox], in a
      trace-and-exception monad.

    Modelling scope.  Remote collaborators (scene preparation, the remote
    render, the Dropbox client) are oracles of a [World] record and may
    raise.  Calls on the local file system ([os.makedirs], [write_bytes],
    saving the scene copy, opening the tracker database) are recorded in the
    trace and taken not to fail for reasons of the machine (permissions, a
    full disk); [os.makedirs] of the empty path, which raises on every
    machine, raises in the model too. *)

From Stdlib Require Import ZArith Ascii String DecimalString.
From stdpp Require Import gmap strings list.

Local Open Scope Z_scope.

(** ** Python strings and posixpath *)

Module PyStr.

(** [s.replace(old, new)] for a one-character [old]: every occurrence of
    the character is rewritten to [new]. *)
Fixpoint replace (old : ascii) (new : string) (s : string) : string :=
  match s with
  | EmptyString => EmptyString
  | String c rest =>
      if Ascii.eqb c old then new +:+ replace old new rest
      else String c (replace old new rest)
  end.

Fixpoint zeros (n : nat) : string :=
  match n with
  | O => EmptyString
  | S k => String "0" (zeros k)
  end.

Definition str_of_N (n : N) : string :=
  NilEmpty.string_of_uint (N.to_uint n).

(** [str(n)] for an integer. *)
Definition str_of_int (n : Z) : string :=
  if n <? 0 then String "-" (str_of_N (Z.abs_N n)) else str_of_N (Z.abs_N n).

(** [f"{n:04d}"]: decimal, sign-aware zero padding to a minimum width of
    four characters; longer numbers are not truncated. *)
Definition format_04d (n : Z) : string :=
  let digits := str_of_N (Z.abs_N n) in
  if n <? 0
  then String "-" (zeros (3 - String.length digits) +:+ digits)
  else zeros (4 - String.length digits) +:+ digits.

Definition sep : ascii := "/"%char.

(** [s.rfind(c)] for a one-character pattern: the highest index of [c], or
    [-1]. *)
Fixpoint rfind (c : ascii) (s : string) : Z :=
  match s with
  | EmptyString => -1
  | String d rest =>
      let i := rfind c rest in
      if 0 <=? i then i + 1
      else if Ascii.eqb d c then 0 else -1
  end.

Fixpoint drop (n : nat) (s : string) : string :=
  match n, s with
  | O, _ => s
  | S k, EmptyString => EmptyString
  | S k, String _ rest => drop k rest
  end.

Fixpoint take (n : nat) (s : string) : string :=
  match n, s with
  | O, _ => EmptyString
  | S k, EmptyString => EmptyString
  | S k, String c rest => String c (take k rest)
  end.

Definition startswith_sep (s : string) : bool :=
  match s with
  | String c _ => Ascii.eqb c sep
  | EmptyString => false
  end.

Fixpoint endswith_sep (s : string) : bool :=
  match s with
  | EmptyString => false
  | String c EmptyString => Ascii.eqb c sep
  | String _ rest => endswith_sep rest
  end.

Definition is_empty (s : string) : bool :=
  match s with EmptyString => true | _ => false end.

(** [posixpath.join(a, b)]. *)
Definition join (a b : string) : string :=
  if startswith_sep b then b
  else if is_empty a || endswith_sep a then a +:+ b
  else a +:+ String sep b.

(** [posixpath.basename(p)]: [p[p.rfind('/') + 1:]]. *)
Definition basename (p : string) : string :=
  drop (Z.to_nat (rfind sep p + 1)) p.

Fixpoint all_sep (s : string) : bool :=
  match s with
  | EmptyString => true
  | String c rest => Ascii.eqb c sep && all_sep rest
  end.

(** [s.rstrip('/')]. *)
Fixpoint rstrip_sep (s : string) : string :=
  match s with
  | EmptyString => EmptyString
  | String c rest =>
      if all_sep rest && Ascii.eqb c sep then EmptyString
      else String c (rstrip_sep rest)
  end.

(** [posixpath.dirname(p)]. *)
Definition dirname (p : string) : string :=
  let head := take (Z.to_nat (rfind sep p + 1)) p in
  if negb (is_empty head) && negb (all_sep head) then rstrip_sep head
  else head.

Definition char_at (i : nat) (s : string) : option ascii := String.get i s.

(** The loop of [genericpath._splitext] that skips leading dots of the
    file name: [true] when some character in [filenameIndex, dotIndex) is
    not a dot. *)
Fixpoint has_non_dot (p : string) (filenameIndex : nat) (count : nat) : bool :=
  match count with
  | O => false
  | S k =>
      match char_at filenameIndex p with
      | Some c =>
          if Ascii.eqb c "."%char then has_non_dot p (S filenameIndex) k
          else true
      | None => true
      end
  end.

(** [posixpath.splitext(p)[0]]. *)
Definition splitext_root (p : string) : string :=
  let sepIndex := rfind sep p in
  let dotIndex := rfind "."%char p in
  if sepIndex <? dotIndex then
    if has_non_dot p (Z.to_nat (sepIndex + 1))
         (Z.to_nat (dotIndex - (sepIndex + 1)))
    then take (Z.to_nat dotIndex) p
    else p
  else p.

End PyStr.

(** ** Insertion-ordered dictionaries *)

Module PyDict.
Section Dict.
Context {V : Type}.

(** A Python [dict] with integer keys: the association list of its items
    in insertion order, one entry per key. *)
Definition t : Type := list (nat * V).

Definition empty : t := [].

(** [d.get(k)] *)
Fixpoint get (d : t) (k : nat) : option V :=
  match d with
  | [] => None
  | (k', v) :: rest => if Nat.eqb k' k then Some v else get rest k
  end.

(** [k in d] *)
Definition contains (d : t) (k : nat) : bool :=
  match get d k with Some _ => true | None => false end.

(** [d[k] = v]: an existing key keeps its position, a new key goes last. *)
Fixpoint set (d : t) (k : nat) (v : V) : t :=
  match d with
  | [] => [(k, v)]
  | (k', v') :: rest =>
      if Nat.eqb k' k then (k, v) :: rest else (k', v') :: set rest k v
  end.

(** Truth value of a dictionary: non-empty. *)
Definition truthy (d : t) : bool :=
  match d with [] => false | _ => true end.
End Dict.
Arguments t : clear implicits.
End PyDict.

(** ** Exceptions *)

Record Exn : Type := Exception { exn_kind : string; exn_msg : string }.

(** ** AssetTracker *)

Module Tracker.
Section Table.
(** The type of the [last_modified REAL] column. *)
Context {Real : Type}.

Record AssetRow : Type := Row { hash : string; last_modified : Real }.

(** The [assets] table: [path TEXT PRIMARY KEY], so at most one row per
    path. *)
Definition Table : Type := gmap string AssetRow.

(** [CREATE TABLE IF NOT EXISTS] on a fresh database file. *)
Definition create : Table := ∅.

(** [SELECT hash FROM assets WHERE path = ?], [fetchone], then
    [result[0] if result else None]. *)
Definition get_asset_hash (db : Table) (path : string) : option string :=
  match db !! path with
  | Some row => Some (hash row)
  | None => None
  end.

(** [INSERT OR REPLACE INTO assets (path, hash, last_modified)]: a row
    with the same primary key is deleted before the new one is
    inserted. *)
Definition update_asset (db : Table) (path file_hash : string)
    (modified_time : Real) : Table :=
  <[path := Row file_hash modified_time]> (delete path db).
End Table.
Arguments AssetRow : clear implicits.
Arguments Table : clear implicits.
End Tracker.

(** ** Output graph, redirection and restoration ([render_frame]) *)

Module Redirect.

(** [slot.format]; the three optional attributes are read with
    [getattr(..., None)]. *)
Record Format : Type := {
  file_format : string;
  color_depth : option string;
  exr_codec : option string;
  color_mode : option string
}.

Record FileSlot : Type := { path : string; format : Format }.

Record OutputNode : Type := { base_path : string; file_slots : list FileSlot }.

(** The entries of [original_paths[node_index]['file_slots']]. *)
Record SlotInfo : Type := { info_path : string; info_format : Format }.

(** [original_paths[node_index]]. *)
Record NodeInfo : Type := {
  info_base_path : string;
  info_file_slots : list SlotInfo
}.

Definition capture_slot (slot : FileSlot) : SlotInfo :=
  {| info_path := path slot; info_format := format slot |}.

Definition capture_node (node : OutputNode) : NodeInfo :=
  {| info_base_path := base_path node;
     info_file_slots := map capture_slot (file_slots node) |}.

Definition set_base_path (dir : string) (node : OutputNode) : OutputNode :=
  {| base_path := dir; file_slots := file_slots node |}.

Definition set_path (p : string) (slot : FileSlot) : FileSlot :=
  {| path := p; format := format slot |}.

(** The first loop of [render_frame]: for each node in order, store its
    base path and slot settings under its index, then point the node at
    the scratch directory. *)
Fixpoint redirect_loop (scratch_dir : string) (node_index : nat)
    (output_nodes : list OutputNode) (original_paths : PyDict.t NodeInfo)
    : PyDict.t NodeInfo * list OutputNode :=
  match output_nodes with
  | [] => (original_paths, [])
  | node :: rest =>
      let original_paths :=
        PyDict.set original_paths node_index (capture_node node) in
      let node := set_base_path scratch_dir node in
      let '(original_paths, rest) :=
        redirect_loop scratch_dir (S node_index) rest original_paths in
      (original_paths, node :: rest)
  end.

Definition redirect (scratch_dir : string) (output_nodes : list OutputNode)
    : PyDict.t NodeInfo * list OutputNode :=
  redirect_loop scratch_dir 0 output_nodes PyDict.empty.

(** The inner loop of the restoration: slot [slot_index] gets its stored
    path when the stored list is long enough. *)
Fixpoint restore_slots (slot_index : nat) (slots : list FileSlot)
    (stored : list SlotInfo) : list FileSlot :=
  match slots with
  | [] => []
  | slot :: rest =>
      let slot :=
        if Nat.ltb slot_index (length stored) then
          match stored !! slot_index with
          | Some slot_info => set_path (info_path slot_info) slot
          | None => slot
          end
        else slot in
      slot :: restore_slots (S slot_index) rest stored
  end.

(** The last loop of [render_frame]. *)
Fixpoint restore_loop (node_index : nat) (output_nodes : list OutputNode)
    (original_paths : PyDict.t NodeInfo) : list OutputNode :=
  match output_nodes with
  | [] => []
  | node :: rest =>
      let node :=
        match PyDict.get original_paths node_index with
        | Some node_info =>
            {| base_path := info_base_path node_info;
               file_slots :=
                 restore_slots 0 (file_slots node) (info_file_slots node_info) |}
        | None => node
        end in
      node :: restore_loop (S node_index) rest original_paths
  end.

Definition restore (output_nodes : list OutputNode)
    (original_paths : PyDict.t NodeInfo) : list OutputNode :=
  restore_loop 0 output_nodes original_paths.

(** The dictionary returned by [render_frame]. *)
Record FrameResult : Type := {
  frame : Z;
  files : list (string * string);
  original_paths : PyDict.t NodeInfo
}.

Definition temp_output_dir : string := "/renders/temp".

(** [render_frame] from the capture of the output paths on.  [bpy_render]
    stands for [bpy.ops.render.render(write_still=True)] followed by the
    walk of the scratch directory: given the nodes as configured at render
    time and the frame, it raises or yields the mapping from relative path
    to path on the volume.  The function returns the nodes as they are on
    exit, and the exception or the result. *)
Definition render_frame
    (bpy_render : list OutputNode -> Z -> Exn + list (string * string))
    (output_nodes : list OutputNode) (frame_number : Z)
    : list OutputNode * (Exn + FrameResult) :=
  let '(original_paths, output_nodes) :=
    redirect temp_output_dir output_nodes in
  match bpy_render output_nodes frame_number with
  | inl e => (output_nodes, inl e)
  | inr rendered_files =>
      let output_nodes := restore output_nodes original_paths in
      (output_nodes,
       inr {| frame := frame_number;
              files := rendered_files;
              original_paths := original_paths |})
  end.

End Redirect.

(** ** The submit operator, reconciliation and upload *)

Module Farm.
Import Redirect.

(** What the add-on does to the outside, in program order. *)
Inductive Event : Type :=
| Print (msg : string)
| Report (level msg : string)
| Makedirs (dir : string)
| WriteBytes (dst src : string)
| SaveAsMainfile (filepath : string)
| TrackerOpen (db_path : string)
| TrackerClose
| RemotePrepare (blend : string)
| RemoteRender (blend : string) (frame_number : Z)
| DropboxUpload (file_path dropbox_path : string).

(** A computation: the events it emitted, then the exception it raised or
    the value it returned. *)
Definition M (A : Type) : Type := list Event * (Exn + A).

#[export] Instance M_ret : MRet M := fun A a => ([], inr a).

#[export] Instance M_bind : MBind M := fun A B k c =>
  match c with
  | (tr, inl e) => (tr, inl e)
  | (tr, inr a) => let '(tr', r) := k a in (tr ++ tr', r)
  end.

Definition raise {A : Type} (e : Exn) : M A := ([], inl e).

Definition emit (ev : Event) : M unit := ([ev], inr tt).

(** [try: body  except Exception as e: handler(e)] *)
Definition try_except {A : Type} (body : M A) (handler : Exn -> M A) : M A :=
  match body with
  | (tr, inl e) => let '(tr', r) := handler e in (tr ++ tr', r)
  | (tr, inr a) => (tr, inr a)
  end.

Definition trace {A : Type} (c : M A) : list Event := c.1.
Definition outcome {A : Type} (c : M A) : Exn + A := c.2.

(** The collaborators of the add-on. *)
Record World : Type := {
  (** [get_file_output_nodes()] *)
  output_nodes : list OutputNode;
  (** [bpy.data.filepath] *)
  filepath : string;
  (** [bpy.path.abspath("//")] *)
  blend_dir : string;
  (** [int(time.time())] *)
  timestamp : Z;
  (** [os.environ.get("DROPBOX_API_TOKEN")] *)
  api_token : option string;
  (** reading the file and [dbx.files_upload]: the exception raised, if
      any *)
  files_upload : string -> string -> option Exn;
  (** [session.app.prepare_blend_file.remote] *)
  prepare_blend_file : string -> Exn + string;
  (** [session.app.render_frame.remote], one call *)
  render_frame_remote : string -> Z -> Exn + FrameResult
}.

Definition str_truthy (o : option string) : bool :=
  match o with
  | Some s => negb (PyStr.is_empty s)
  | None => false
  end.

(** Module-level [upload_to_dropbox(file_path, dropbox_path)].  The
    [import dropbox] at its head is taken to succeed. *)
Definition upload_to_dropbox (w : World) (file_path dropbox_path : string)
    : M bool :=
  if negb (str_truthy (api_token w)) then
    emit (Print "Warning: DROPBOX_API_TOKEN not set, skipping Dropbox upload");;
    mret false
  else
    match files_upload w file_path dropbox_path with
    | None =>
        emit (DropboxUpload file_path dropbox_path);;
        emit (Print ("Uploaded " +:+ file_path +:+ " to Dropbox at "
                     +:+ dropbox_path));;
        mret true
    | Some e =>
        emit (Print ("Error uploading to Dropbox: " +:+ exn_msg e));;
        mret false
    end.

(** The values a name of the add-on can be bound to where it is called
    with two paths. *)
Inductive PyVal : Type :=
| PyBool (b : bool)
| PyFunction (f : string -> string -> M bool).

Definition py_truthy (v : PyVal) : bool :=
  match v with
  | PyBool b => b
  | PyFunction _ => true
  end.

(** [callee(a, b)] *)
Definition py_call (callee : PyVal) (a b : string) : M bool :=
  match callee with
  | PyFunction f => f a b
  | PyBool _ => raise (Exception "TypeError" "'bool' object is not callable")
  end.

(** [slot_info['path'].replace('#', f"{frame:04d}")] *)
Definition substitute_frame (frame : Z) (slot_template : string) : string :=
  PyStr.replace "#" (PyStr.format_04d frame) slot_template.

(** [os.path.basename(rel_path) == os.path.basename(slot_path)] *)
Definition same_basename (rel_path slot_path : string) : bool :=
  String.eqb (PyStr.basename rel_path) (PyStr.basename slot_path).

(** The loop over the slots of one node: the first slot whose substituted
    path has the basename of [rel_path] sets [original_path] and breaks. *)
Fixpoint find_in_slots (frame : Z) (rel_path base_path : string)
    (slots : list SlotInfo) (original_path : option string) : option string :=
  match slots with
  | [] => original_path
  | slot_info :: rest =>
      let slot_path := substitute_frame frame (info_path slot_info) in
      let potential_path := PyStr.join base_path slot_path in
      if same_basename rel_path slot_path
      then Some potential_path
      else find_in_slots frame rel_path base_path rest original_path
  end.

(** The loop over [original_paths.items()], which breaks as soon as
    [original_path] is true. *)
Fixpoint find_in_nodes (frame : Z) (rel_path : string)
    (items : list (nat * NodeInfo)) (original_path : option string)
    : option string :=
  match items with
  | [] => original_path
  | (node_index, node_info) :: rest =>
      let original_path :=
        find_in_slots frame rel_path (info_base_path node_info)
          (info_file_slots node_info) original_path in
      if str_truthy original_path then original_path
      else find_in_nodes frame rel_path rest original_path
  end.

Definition fallback_dir (w : World) : string :=
  PyStr.join (blend_dir w) "modal_render_output".

(** The value of [original_path] when the file is written. *)
Definition resolve_original_path (w : World) (frame : Z)
    (original_paths : PyDict.t NodeInfo) (rel_path : string) : string :=
  let original_path := find_in_nodes frame rel_path original_paths None in
  if negb (str_truthy original_path) then
    if PyDict.truthy original_paths && PyDict.contains original_paths 0 then
      match PyDict.get original_paths 0%nat with
      | Some node_info => PyStr.join (info_base_path node_info) rel_path
      | None => PyStr.join (fallback_dir w) rel_path
      end
    else PyStr.join (fallback_dir w) rel_path
  else
    match original_path with
    | Some p => p
    | None => EmptyString
    end.

(** [os.makedirs(name, exist_ok=True)].  The empty name, which is what
    [os.path.dirname] gives for a path without a directory part, raises
    [FileNotFoundError]; any other directory is taken to be creatable. *)
Definition makedirs (name : string) : M unit :=
  if PyStr.is_empty name
  then raise (Exception "FileNotFoundError"
                "[Errno 2] No such file or directory: ''")
  else emit (Makedirs name).

(** The loop over [files.items()] of [_process_rendered_files].  The name
    [upload_to_dropbox] is the parameter of that method in its whole body,
    in the test and in the call. *)
Fixpoint process_files (w : World) (frame : Z)
    (original_paths : PyDict.t NodeInfo) (upload_to_dropbox : PyVal)
    (dropbox_folder : string) (files : list (string * string)) : M unit :=
  match files with
  | [] => mret tt
  | (rel_path, file_path) :: rest =>
      let original_path :=
        resolve_original_path w frame original_paths rel_path in
      makedirs (PyStr.dirname original_path);;
      emit (WriteBytes original_path file_path);;
      emit (Print ("Saved file to " +:+ original_path));;
      (if py_truthy upload_to_dropbox then
         let dropbox_path :=
           PyStr.join dropbox_folder (PyStr.basename original_path) in
         py_call upload_to_dropbox original_path dropbox_path;; mret tt
       else mret tt);;
      process_files w frame original_paths upload_to_dropbox dropbox_folder
        rest
  end.

Definition _process_rendered_files (w : World) (result : FrameResult)
    (upload_to_dropbox : PyVal) (dropbox_folder : string) : M unit :=
  process_files w (frame result) (original_paths result) upload_to_dropbox
    dropbox_folder (files result).

Inductive RenderType : Type := FRAME | ANIMATION | RANGE.

(** The properties of the operator. *)
Module Operator.
Record t : Type := {
  render_type : RenderType;
  start_frame : Z;
  end_frame : Z;
  gpu_enabled : bool;
  max_containers : Z;
  upload_to_dropbox : bool;
  dropbox_folder : string
}.
End Operator.

(** [context.scene] *)
Module Scene.
Record t : Type := { frame_current : Z; frame_start : Z; frame_end : Z }.
End Scene.

Inductive Status : Type := FINISHED | CANCELLED.

(** [range(start, stop)] *)
Definition py_range (start stop : Z) : list Z :=
  map (fun i => start + Z.of_nat i) (seq 0 (Z.to_nat (stop - start))).

(** [list(...)] over the outputs of a map: the outputs in input order, or
    the first exception met. *)
Fixpoint collect (outs : list (Exn + FrameResult)) : Exn + list FrameResult :=
  match outs with
  | [] => inr []
  | inl e :: _ => inl e
  | inr r :: rest =>
      match collect rest with
      | inl e => inl e
      | inr rs => inr (r :: rs)
      end
  end.

(** [list(session.app.render_frame.map(args, max_concurrency=...))]: every
    input is submitted; the outputs are read in input order and an input
    that failed raises there.  How many calls run at a time is not
    modelled. *)
Definition render_frame_map (w : World) (args : list (string * Z))
    : M (list FrameResult) :=
  (map (fun a => RemoteRender a.1 a.2) args,
   collect (map (fun a => render_frame_remote w a.1 a.2) args)).

Definition remote_prepare (w : World) (blend : string) : M string :=
  ([RemotePrepare blend], prepare_blend_file w blend).

Definition remote_render (w : World) (blend : string) (frame : Z)
    : M FrameResult :=
  ([RemoteRender blend frame], render_frame_remote w blend frame).

(** [for result in results: self._process_rendered_files(...)] *)
Fixpoint process_results (w : World) (upload_to_dropbox : PyVal)
    (dropbox_folder : string) (results : list FrameResult) : M unit :=
  match results with
  | [] => mret tt
  | result :: rest =>
      _process_rendered_files w result upload_to_dropbox dropbox_folder;;
      process_results w upload_to_dropbox dropbox_folder rest
  end.

Definition submitter_dir : string :=
  "/Users/derek/Skunkworks Dropbox/studio/submitter".

(** The body of the [try] block of [execute]. *)
Definition dispatch (w : World) (self : Operator.t) (scene : Scene.t)
    (temp_blend : string) : M Status :=
  volume_blend_path ← remote_prepare w temp_blend;
  match Operator.render_type self with
  | FRAME =>
      let frame := Scene.frame_current scene in
      result ← remote_render w volume_blend_path frame;
      _process_rendered_files w result
        (PyBool (Operator.upload_to_dropbox self))
        (Operator.dropbox_folder self);;
      emit (Report "INFO" ("Rendered frame " +:+ PyStr.str_of_int frame
                           +:+ " saved to original output paths"))
  | rt =>
      let '(start, end_) :=
        match rt with
        | ANIMATION => (Scene.frame_start scene, Scene.frame_end scene)
        | _ => (Operator.start_frame self, Operator.end_frame self)
        end in
      let args :=
        map (fun frame => (volume_blend_path, frame))
          (py_range start (end_ + 1)) in
      results ← render_frame_map w args;
      process_results w (PyBool (Operator.upload_to_dropbox self))
        (Operator.dropbox_folder self) results;;
      emit (Report "INFO"
              "All frames rendered and saved to original output paths")
  end;;
  emit TrackerClose;;
  mret FINISHED.

(** The name of the scene copy:
    [os.path.join(submitter_dir, f"{os.path.splitext(filename)[0]}_{timestamp}.blend")]. *)
Definition temp_blend_path (w : World) : string :=
  let filename := PyStr.basename (filepath w) in
  PyStr.join submitter_dir
    (PyStr.splitext_root filename +:+ "_"
     +:+ PyStr.str_of_int (timestamp w) +:+ ".blend").

(** [ModalVFXRenderFarmOperator.execute] *)
Definition execute (w : World) (self : Operator.t) (scene : Scene.t)
    : M Status :=
  match output_nodes w with
  | [] =>
      emit (Report "ERROR" "No File Output nodes found in the compositor. Please set up your output in the compositor first.");;
      mret CANCELLED
  | _ =>
      emit (Makedirs submitter_dir);;
      let current_file := filepath w in
      if PyStr.is_empty current_file then
        emit (Report "ERROR" "Please save your file before rendering.");;
        mret CANCELLED
      else
        let temp_blend := temp_blend_path w in
        emit (SaveAsMainfile temp_blend);;
        let db_path := PyStr.join submitter_dir "asset_tracker.db" in
        emit (Makedirs (PyStr.dirname db_path));;
        emit (TrackerOpen db_path);;
        emit (Report "INFO" "Starting render on Modal. Using File Output nodes from compositor.");;
        try_except (dispatch w self scene temp_blend)
          (fun e =>
             emit (Report "ERROR" ("Error rendering on Modal: "
                                   +:+ exn_msg e));;
             emit TrackerClose;;
             mret CANCELLED)
  end.

(** *** Matching, as predicates *)

(** The slot's substituted path has the basename of the produced file. *)
Definition slot_matches (frame : Z) (rel_path : string) (slot_info : SlotInfo)
    : bool :=
  same_basename rel_path (substitute_frame frame (info_path slot_info)).

(** No slot of the node matches the produced file. *)
Definition node_unmatched (frame : Z) (rel_path : string)
    (item : nat * NodeInfo) : Prop :=
  Forall (λ s, slot_matches frame rel_path s = false) (info_file_slots item.2).

(** *** Reading a trace *)

(** The frames of the remote render calls, in order. *)
Definition rendered_frames (tr : list Event) : list Z :=
  omap (λ ev, match ev with RemoteRender _ f => Some f | _ => None end) tr.

(** The files copied to their resolved place: destination and source. *)
Definition written_files (tr : list Event) : list (string * string) :=
  omap (λ ev, match ev with WriteBytes dst src => Some (dst, src) | _ => None end)
    tr.

(** The messages reported at level ERROR. *)
Definition error_reports (tr : list Event) : list string :=
  omap (λ ev, match ev with
              | Report level msg =>
                  if String.eqb level "ERROR" then Some msg else None
              | _ => None
              end) tr.

(** Saving the scene copy, the scene upload, remote renders and uploads. *)
Definition remote_work (ev : Event) : bool :=
  match ev with
  | SaveAsMainfile _ | RemotePrepare _ | RemoteRender _ _ | DropboxUpload _ _ =>
      true
  | _ => false
  end.

End Farm.

(** ** The compositor side: [get_file_output_nodes], [configure_rendering] *)

Module Compositor.
Import Farm.

Section OutputNodes.
(** The nodes of a compositor tree, with their [type] attribute. *)
Context {Node : Type} (node_type : Node → string).

(** A scene of [bpy.data.scenes]: [scene.node_tree] ([None] when the scene
    has no tree) and [scene.use_nodes]. *)
Record Scene : Type := { node_tree : option (list Node); use_nodes : bool }.

(** The loop over the nodes of one tree, appending to [output_nodes]. *)
Fixpoint scan_nodes (nodes : list Node) (output_nodes : list Node)
    : list Node :=
  match nodes with
  | [] => output_nodes
  | node :: rest =>
      if String.eqb (node_type node) "OUTPUT_FILE"
      then scan_nodes rest (output_nodes ++ [node])
      else scan_nodes rest output_nodes
  end.

(** The loop over [bpy.data.scenes]. *)
Fixpoint scan_scenes (scenes : list Scene) (output_nodes : list Node)
    : list Node :=
  match scenes with
  | [] => output_nodes
  | scene :: rest =>
      match node_tree scene with
      | Some nodes =>
          if use_nodes scene
          then scan_scenes rest (scan_nodes nodes output_nodes)
          else scan_scenes rest output_nodes
      | None => scan_scenes rest output_nodes
      end
  end.

(** [get_file_output_nodes()] *)
Definition get_file_output_nodes (scenes : list Scene) : list Node :=
  scan_scenes scenes [].

(** [node.type == 'OUTPUT_FILE'] *)
Definition is_output (node : Node) : bool :=
  String.eqb (node_type node) "OUTPUT_FILE".

(** The File Output nodes one scene contributes. *)
Definition scene_outputs (scene : Scene) : list Node :=
  match node_tree scene with
  | Some nodes => if use_nodes scene then List.filter is_output nodes else []
  | None => []
  end.
End OutputNodes.
Arguments Scene : clear implicits.
Arguments node_tree {Node} _.
Arguments use_nodes {Node} _.

(** A render device of the Cycles preferences. *)
Record Device : Type := {
  dev_id : string;
  dev_name : string;
  dev_type : string;
  dev_use : bool
}.

(** [ctx.preferences.addons["cycles"].preferences] *)
Record CyclesPreferences : Type := {
  compute_device_type : string;
  devices : list Device
}.

(** What [configure_rendering] reads and writes of its context:
    [ctx.scene.render.engine], [ctx.scene.cycles.device] and the entry
    ["cycles"] of [ctx.preferences.addons], if there is one.  Cycles is an
    add-on: without that entry the engine CYCLES is not registered and the
    scene has no [cycles] settings. *)
Record Ctx : Type := {
  engine : string;
  cycles_device : string;
  cycles_addon : option CyclesPreferences
}.

Definition set_use (device : Device) : Device :=
  {| dev_id := dev_id device; dev_name := dev_name device;
     dev_type := dev_type device; dev_use := true |}.

(** [str(b)] for a boolean. *)
Definition str_of_bool (b : bool) : string := if b then "True" else "False".

(** The line printed for one device. *)
Definition device_line (dev : Device) : Event :=
  Print ("ID:" +:+ dev_id dev +:+ " Name:" +:+ dev_name dev +:+ " Type:"
         +:+ dev_type dev +:+ " Use:" +:+ str_of_bool (dev_use dev)).

(** [configure_rendering(ctx, with_gpu)].  [get_devices] stands for the
    method of that name, which reloads the device list for the configured
    backend.  The function returns the context as it is on exit, and what
    was printed and raised.  Without the Cycles add-on the first statement,
    the assignment of ["CYCLES"] to the engine, is refused by Blender with a
    [TypeError] (worded as by the [bpy] 4.3 the worker image installs) and
    nothing is changed. *)
Definition configure_rendering
    (get_devices : CyclesPreferences → list Device)
    (ctx : Ctx) (with_gpu : bool) : Ctx * M unit :=
  match cycles_addon ctx with
  | None =>
      (ctx, raise (Exception "TypeError"
                     ("bpy_struct: item.attr = val: enum "
                      +:+ String "034" "CYCLES"
                      +:+ String "034" " not found in ('BLENDER_EEVEE_NEXT', 'BLENDER_WORKBENCH')")))
  | Some prefs =>
      let ctx :=
        {| engine := "CYCLES"; cycles_device := cycles_device ctx;
           cycles_addon := cycles_addon ctx |} in
      if with_gpu then
        let prefs :=
          {| compute_device_type := "CUDA"; devices := devices prefs |} in
        let prefs :=
          {| compute_device_type := compute_device_type prefs;
             devices := map set_use (get_devices prefs) |} in
        ({| engine := engine ctx; cycles_device := "GPU";
            cycles_addon := Some prefs |},
         (map device_line (devices prefs), inr tt))
      else
        ({| engine := engine ctx; cycles_device := "CPU";
            cycles_addon := Some prefs |},
         (map device_line (devices prefs), inr tt))
  end.

End Compositor.

(** ** More ways to read a run *)

Module Observe.
Import Redirect Farm.

(** The tracker events of a trace: [true] for an opening, [false] for a
    closing. *)
Definition tracker_events (tr : list Event) : list bool :=
  omap (λ ev, match ev with
              | TrackerOpen _ => Some true
              | TrackerClose => Some false
              | _ => None
              end) tr.

(** Neither a tracker event nor an ERROR report. *)
Definition quiet (ev : Event) : bool :=
  match ev with
  | TrackerOpen _ | TrackerClose => false
  | Report level _ => negb (String.eqb level "ERROR")
  | _ => true
  end.

(** The three steps of placing one produced file. *)
Definition placement (w : World) (frame : Z)
    (original_paths : PyDict.t NodeInfo) (file : string * string)
    : list Event :=
  let original_path :=
    resolve_original_path w frame original_paths file.1 in
  [Makedirs (PyStr.dirname original_path);
   WriteBytes original_path file.2;
   Print ("Saved file to " +:+ original_path)].

(** The resolved path of the produced file has a directory part, so that
    [os.makedirs] has something to create. *)
Definition has_directory (w : World) (frame : Z)
    (original_paths : PyDict.t NodeInfo) (file : string * string) : bool :=
  negb (PyStr.is_empty
          (PyStr.dirname
             (resolve_original_path w frame original_paths file.1))).

(** Reading back a decimal string. *)
Definition decode_04d (s : string) : option N :=
  match NilEmpty.uint_of_string s with
  | Some u => Some (N.of_uint u)
  | None => None
  end.

(** The operator with another value of [gpu_enabled]. *)
Definition with_gpu_enabled (b : bool) (self : Operator.t) : Operator.t :=
  {| Operator.render_type := Operator.render_type self;
     Operator.start_frame := Operator.start_frame self;
     Operator.end_frame := Operator.end_frame self;
     Operator.gpu_enabled := b;
     Operator.max_containers := Operator.max_containers self;
     Operator.upload_to_dropbox := Operator.upload_to_dropbox self;
     Operator.dropbox_folder := Operator.dropbox_folder self |}.

(** The events of every run that passes both precondition checks, up to the
    start of the [try] block. *)
Definition preamble (w : World) : list Event :=
  [Makedirs submitter_dir;
   SaveAsMainfile (temp_blend_path w);
   Makedirs (PyStr.dirname (PyStr.join submitter_dir "asset_tracker.db"));
   TrackerOpen (PyStr.join submitter_dir "asset_tracker.db");
   Report "INFO" "Starting render on Modal. Using File Output nodes from compositor."].

(** What the [except] branch of [execute] emits. *)
Definition failure_tail (err : Exn) : list Event :=
  [Report "ERROR" ("Error rendering on Modal: " +:+ exn_msg err);
   TrackerClose].

End Observe.

(** ** Sample scenes and worlds *)

Module Sample.
Import Redirect Farm.

Definition exr : Format :=
  {| file_format := "OPEN_EXR"; color_depth := Some "16";
     exr_codec := Some "ZIP"; color_mode := Some "RGBA" |}.

(** Node [main], slot [rgba]. *)
Definition main_node : OutputNode :=
  {| base_path := "/out/main";
     file_slots := [ {| path := "main.####.exr"; format := exr |} ] |}.

(** Node [data], slot [normal]. *)
Definition data_node : OutputNode :=
  {| base_path := "/out/data";
     file_slots := [ {| path := "data.####.exr"; format := exr |} ] |}.

Definition graph : list OutputNode := [main_node; data_node].

(** The snapshot [render_frame] returns for [graph]. *)
Definition snapshot : PyDict.t NodeInfo := (redirect temp_output_dir graph).1.

Definition render_error : Exn := Exception "RuntimeError" "Error: render failed".

(** A render step that always raises. *)
Definition failing_render (nodes : list OutputNode) (frame_number : Z)
    : Exn + list (string * string) := inl render_error.

(** A render step that writes one file per node. *)
Definition working_render (nodes : list OutputNode) (frame_number : Z)
    : Exn + list (string * string) :=
  inr [("main.0003.exr", "/renders/temp/main.0003.exr");
       ("data.0003.exr", "/renders/temp/data.0003.exr")].

(** The produced files of the two-node scene for frame 3. *)
Definition frame3 : FrameResult :=
  {| frame := 3;
     files := [("main.0003.exr", "/renders/temp/main.0003.exr");
               ("data.0003.exr", "/renders/temp/data.0003.exr")];
     original_paths := snapshot |}.

(** A remote render that fails on the frames of [bad] and otherwise returns
    one file for node [main]. *)
Definition remote (bad : list Z) (blend : string) (frame_number : Z)
    : Exn + FrameResult :=
  if bool_decide (frame_number ∈ bad) then inl render_error
  else
    let name := "main." +:+ PyStr.format_04d frame_number +:+ ".exr" in
    inr {| frame := frame_number;
           files := [(name, PyStr.join temp_output_dir name)];
           original_paths := snapshot |}.

(** A saved scene with the two-node graph, no Dropbox token, and a remote
    render failing on [bad]. *)
Definition world (bad : list Z) : World :=
  {| output_nodes := graph;
     filepath := "/home/artist/shot.blend";
     blend_dir := "/home/artist/";
     timestamp := 1700000000;
     api_token := None;
     files_upload := fun _ _ => None;
     prepare_blend_file :=
       fun blend => inr ("/assets/blend_files/" +:+ PyStr.basename blend);
     render_frame_remote := remote bad |}.

(** A scene that was never saved and has no File Output node. *)
Definition blank_world : World :=
  {| output_nodes := [];
     filepath := "";
     blend_dir := "";
     timestamp := 1700000000;
     api_token := None;
     files_upload := fun _ _ => None;
     prepare_blend_file :=
       fun blend => inr ("/assets/blend_files/" +:+ PyStr.basename blend);
     render_frame_remote := remote [] |}.

(** Where [prepare_blend_file] puts the copy of [shot.blend]. *)
Definition volume_blend : string :=
  "/assets/blend_files/shot_1700000000.blend".

Definition operator (rt : RenderType) (s e : Z) (upload : bool) : Operator.t :=
  {| Operator.render_type := rt;
     Operator.start_frame := s;
     Operator.end_frame := e;
     Operator.gpu_enabled := true;
     Operator.max_containers := 2;
     Operator.upload_to_dropbox := upload;
     Operator.dropbox_folder := "/Renders" |}.

Definition scene : Scene.t :=
  {| Scene.frame_current := 3; Scene.frame_start := 1; Scene.frame_end := 4 |}.

End Sample.

(** ** Two claims of the specification, as it states them *)

Module AsStated.
Import Redirect Farm.

(** Restore on every exit path: whatever the render step does, the nodes are
    as they were when the unit exits. *)
Definition restored_on_every_exit
    (bpy_render : list OutputNode → Z → Exn + list (string * string))
    (G : list OutputNode) (frame_number : Z) : Prop :=
  (render_frame bpy_render G frame_number).1 = G.

(** Per-frame failure: every frame that was issued and rendered has its
    files placed, whatever happened to the other frames. *)
Definition failure_is_per_frame (w : World) (self : Operator.t)
    (scene : Scene.t) : Prop :=
  ∀ blend f result,
    RemoteRender blend f ∈ trace (execute w self scene) →
    render_frame_remote w blend f = inr result →
    ∀ rel_path file_path,
      (rel_path, file_path) ∈ files result →
      ∃ dst, (dst, file_path) ∈ written_files (trace (execute w self scene)).

End AsStated.

(** ** More sample data *)

Module MoreSamples.
Import Redirect Farm Compositor.

(** The two-node graph after something rewrote every path. *)
Definition scrambled_graph : list OutputNode :=
  [ {| base_path := "/elsewhere";
       file_slots := [ {| path := "x"; format := Sample.exr |} ] |};
    {| base_path := "";
       file_slots := [ {| path := "y.png"; format := Sample.exr |} ] |} ].

(** Three nodes for frame 3 and the produced file [beauty.0003.exr]: no
    slot of the first matches; of the second, the first slot does not match
    and the next two do; the slot of the third matches too. *)
Definition slot_info (p : string) : SlotInfo :=
  {| info_path := p; info_format := Sample.exr |}.

Definition depth_info : NodeInfo :=
  {| info_base_path := "/out/data";
     info_file_slots := [slot_info "depth.#.exr"] |}.

Definition layered_info : NodeInfo :=
  {| info_base_path := "/out/beauty";
     info_file_slots :=
       [slot_info "alpha.#.exr"; slot_info "beauty.#.exr";
        slot_info "sub/beauty.#.exr"] |}.

Definition late_info : NodeInfo :=
  {| info_base_path := "/out/late";
     info_file_slots := [slot_info "beauty.#.exr"] |}.

Definition three_nodes : PyDict.t NodeInfo :=
  [(0%nat, depth_info); (1%nat, layered_info); (2%nat, late_info)].

(** The snapshot of one node whose base path is empty. *)
Definition flat_snapshot : PyDict.t NodeInfo :=
  [(0%nat, {| info_base_path := ""; info_file_slots := [] |})].

(** A world whose scene upload fails. *)
Definition upload_error : Exn := Exception "ConnectionError" "volume unreachable".

Definition unprepared_world : World :=
  {| output_nodes := Sample.graph;
     filepath := "/home/artist/shot.blend";
     blend_dir := "/home/artist/";
     timestamp := 1700000000;
     api_token := None;
     files_upload := fun _ _ => None;
     prepare_blend_file := fun _ => inl upload_error;
     render_frame_remote := Sample.remote [] |}.

(** One scene whose compositor is switched off. *)
Definition idle_scenes : list (Scene OutputNode) :=
  [ {| node_tree := Some [Sample.main_node]; use_nodes := false |} ].

Definition always_output (node : OutputNode) : string := "OUTPUT_FILE".

Definition cpu_device : Device :=
  {| dev_id := "CPU_0"; dev_name := "Host CPU"; dev_type := "CPU";
     dev_use := false |}.

Definition cuda_device : Device :=
  {| dev_id := "CUDA_0"; dev_name := "L40S"; dev_type := "CUDA";
     dev_use := false |}.

Definition cycles_prefs : CyclesPreferences :=
  {| compute_device_type := "NONE"; devices := [cpu_device; cuda_device] |}.

Definition worker_ctx : Ctx :=
  {| engine := "BLENDER_EEVEE_NEXT"; cycles_device := "CPU";
     cycles_addon := Some cycles_prefs |}.


End MoreSamples.

(** * Properties *)

Example replace_single_hash :
  PyStr.replace "#" (PyStr.format_04d 7) "main.#.exr" = "main.0007.exr".
Proof. reflexivity. Qed.

Example format_04d_samples :
  PyStr.format_04d 7 = "0007" /\ PyStr.format_04d 9999 = "9999" /\
  PyStr.format_04d 12345 = "12345" /\ PyStr.format_04d (-7) = "-007" /\
  PyStr.format_04d 0 = "0000".
Proof. repeat split; reflexivity. Qed.

Example posixpath_samples :
  PyStr.join "/out/main" "main.0003.exr" = "/out/main/main.0003.exr" /\
  PyStr.join "/out/" "a" = "/out/a" /\ PyStr.join "" "a" = "a" /\
  PyStr.join "/out" "/abs/a" = "/abs/a" /\
  PyStr.basename "sub/dir/a.exr" = "a.exr" /\ PyStr.basename "a.exr" = "a.exr" /\
  PyStr.basename "sub/" = "" /\
  PyStr.dirname "/out/main/a.exr" = "/out/main" /\ PyStr.dirname "a.exr" = "" /\
  PyStr.dirname "/a.exr" = "/" /\ PyStr.dirname "x//a" = "x" /\
  PyStr.splitext_root "shot.blend" = "shot" /\
  PyStr.splitext_root ".hidden" = ".hidden" /\
  PyStr.splitext_root "a/b.c/d" = "a/b.c/d" /\
  PyStr.splitext_root "..x.y" = "..x".
Proof. repeat split; reflexivity. Qed.

(** ** Dictionaries *)

Section DictFacts.
Context {V : Type}.
Implicit Types (d : PyDict.t V) (k : nat) (v : V).

Lemma dict_get_set_eq d k v : PyDict.get (PyDict.set d k v) k = Some v.
Proof.
  induction d as [|[k' v'] d IH]; simpl.
  - by rewrite Nat.eqb_refl.
  - destruct (Nat.eqb k' k) eqn:E; simpl.
    + by rewrite Nat.eqb_refl.
    + by rewrite E.
Qed.

Lemma dict_get_set_ne d k k' v :
  k ≠ k' → PyDict.get (PyDict.set d k v) k' = PyDict.get d k'.
Proof.
  intros Hne. induction d as [|[j vj] d IH]; simpl.
  - by apply Nat.eqb_neq in Hne as ->.
  - destruct (Nat.eqb j k) eqn:E; simpl.
    + apply Nat.eqb_eq in E as ->.
      by apply Nat.eqb_neq in Hne as ->.
    + by rewrite IH.
Qed.

(** Assigning to a key that is not there appends the item. *)
Lemma dict_set_fresh d k v :
  PyDict.get d k = None → PyDict.set d k v = d ++ [(k, v)].
Proof.
  induction d as [|[j vj] d IH]; simpl; [done|].
  destruct (Nat.eqb j k); [done|]. intros H. by rewrite IH.
Qed.

Lemma dict_get_app d1 d2 k :
  PyDict.get (d1 ++ d2) k =
    match PyDict.get d1 k with
    | Some v => Some v
    | None => PyDict.get d2 k
    end.
Proof.
  induction d1 as [|[j vj] d1 IH]; simpl; [done|].
  by destruct (Nat.eqb j k).
Qed.
End DictFacts.

(** ** AssetTracker *)

Section TrackerFacts.
Context {Real : Type}.
Implicit Types (db : Tracker.Table Real) (p h : string) (t : Real).

Lemma update_asset_lookup db p h t :
  Tracker.get_asset_hash (Tracker.update_asset db p h t) p = Some h.
Proof.
  unfold Tracker.get_asset_hash, Tracker.update_asset, Tracker.Table in *.
  by rewrite lookup_insert_eq.
Qed.

Lemma update_asset_other db p q h t :
  p ≠ q →
  Tracker.get_asset_hash (Tracker.update_asset db p h t) q
  = Tracker.get_asset_hash db q.
Proof.
  intros Hne.
  unfold Tracker.get_asset_hash, Tracker.update_asset, Tracker.Table in *.
  by rewrite lookup_insert_ne, lookup_delete_ne.
Qed.

Lemma update_asset_size_existing db p h t :
  is_Some (db !! p) → size (Tracker.update_asset db p h t) = size db.
Proof.
  intros [row Hrow]. unfold Tracker.update_asset, Tracker.Table in *.
  rewrite map_size_insert_None by apply lookup_delete_eq.
  rewrite map_size_delete, Hrow. simpl.
  assert (size db ≠ 0%nat); [|lia].
  intros Hz. apply map_size_empty_inv in Hz. subst db.
  by rewrite lookup_empty in Hrow.
Qed.

(** C8: recording twice on one path leaves the second hash as the lookup
    result, and the second recording replaces the row of the first: the table
    has as many rows after it as before it. *)
Theorem C8_record_twice_keeps_last db p h1 h2 t1 t2 :
  let db1 := Tracker.update_asset db p h1 t1 in
  let db2 := Tracker.update_asset db1 p h2 t2 in
  Tracker.get_asset_hash db2 p = Some h2 ∧ size db2 = size db1.
Proof.
  simpl. split.
  - apply update_asset_lookup.
  - apply update_asset_size_existing.
    unfold Tracker.update_asset, Tracker.Table in *.
    rewrite lookup_insert_eq. by eexists.
Qed.
End TrackerFacts.

(** ** Redirection and restoration *)

Section RedirectFacts.
Import Redirect.
Implicit Types (G nodes : list OutputNode) (d : PyDict.t NodeInfo).
Local Open Scope nat_scope.

Lemma dict_get_enumerated nodes : ∀ k j,
  PyDict.get (zip (seq k (length nodes)) (map capture_node nodes)) j =
    if bool_decide (k ≤ j) then capture_node <$> nodes !! (j - k) else None.
Proof.
  induction nodes as [|n nodes IH]; intros k j; simpl.
  - by case_bool_decide.
  - destruct (Nat.eqb k j) eqn:E.
    + apply Nat.eqb_eq in E as ->.
      rewrite bool_decide_eq_true_2 by lia. by rewrite Nat.sub_diag.
    + apply Nat.eqb_neq in E. rewrite IH.
      repeat case_bool_decide; try lia; [|done].
      by replace (j - k) with (S (j - S k)) by lia.
Qed.

(** The capture loop appends one item per node, keyed by the node's index,
    and rewrites only the base paths. *)
Lemma redirect_loop_spec scratch_dir nodes : ∀ k d,
  (∀ j, k ≤ j → PyDict.get d j = None) →
  redirect_loop scratch_dir k nodes d =
    (d ++ zip (seq k (length nodes)) (map capture_node nodes),
     map (set_base_path scratch_dir) nodes).
Proof.
  induction nodes as [|n nodes IH]; intros k d Hd; simpl.
  - by rewrite app_nil_r.
  - rewrite dict_set_fresh by (apply Hd; lia).
    rewrite IH.
    + by rewrite <- app_assoc.
    + intros j Hj. rewrite dict_get_app, Hd by lia. simpl.
      destruct (Nat.eqb k j) eqn:E; [|done].
      apply Nat.eqb_eq in E. lia.
Qed.

Lemma redirect_spec scratch_dir G :
  redirect scratch_dir G =
    (zip (seq 0 (length G)) (map capture_node G),
     map (set_base_path scratch_dir) G).
Proof. unfold redirect. by rewrite redirect_loop_spec. Qed.

Lemma restore_slots_captured slots : ∀ k stored,
  (∀ i slot, slots !! i = Some slot →
             stored !! (k + i) = Some (capture_slot slot)) →
  restore_slots k slots stored = slots.
Proof.
  induction slots as [|slot slots IH]; intros k stored H; simpl; [done|].
  f_equal.
  - specialize (H 0 slot eq_refl). rewrite Nat.add_0_r in H. rewrite H.
    destruct (Nat.ltb k (length stored)); [|done]. by destruct slot.
  - apply IH. intros i s Hs. specialize (H (S i) s Hs).
    by replace (S k + i) with (k + S i) by lia.
Qed.

Lemma restore_loop_captured scratch_dir nodes : ∀ k d,
  (∀ i node, nodes !! i = Some node →
             PyDict.get d (k + i) = Some (capture_node node)) →
  restore_loop k (map (set_base_path scratch_dir) nodes) d = nodes.
Proof.
  induction nodes as [|n nodes IH]; intros k d H; simpl; [done|].
  f_equal.
  - specialize (H 0 n eq_refl). rewrite Nat.add_0_r in H. rewrite H. simpl.
    rewrite restore_slots_captured; [by destruct n|].
    intros i slot Hs. simpl. by rewrite list_lookup_fmap, Hs.
  - apply IH. intros i node Hn. specialize (H (S i) node Hn).
    by replace (S k + i) with (k + S i) by lia.
Qed.

Lemma restore_redirect scratch_dir G :
  restore (redirect scratch_dir G).2 (redirect scratch_dir G).1 = G.
Proof.
  rewrite redirect_spec. simpl. unfold restore.
  apply restore_loop_captured. intros i node Hn.
  rewrite dict_get_enumerated. rewrite bool_decide_eq_true_2 by lia.
  simpl. by rewrite Nat.sub_0_r, Hn.
Qed.

(** C5: the redirect step stores, under each node's index and in node
    order, the node's base path and the ordered list of its slot paths (with
    their format settings), and changes the base path of every node to the
    scratch directory and nothing else: the slot lists, paths and formats
    included, are the ones before the step. *)
Theorem C5_redirect_captures_and_sets_base_only scratch_dir G :
  let snapshot := (redirect scratch_dir G).1 in
  let G' := (redirect scratch_dir G).2 in
  map fst snapshot = seq 0 (length G) ∧
  map snd snapshot =
    map (λ node,
           {| info_base_path := base_path node;
              info_file_slots :=
                map (λ slot, {| info_path := path slot;
                                info_format := format slot |})
                  (file_slots node) |}) G ∧
  map base_path G' = replicate (length G) scratch_dir ∧
  map file_slots G' = map file_slots G.
Proof.
  simpl. rewrite redirect_spec. simpl. repeat split.
  - rewrite fst_zip; [done|]. by rewrite length_seq, length_map.
  - rewrite snd_zip; [done|]. by rewrite length_seq, length_map.
  - induction G as [|n G IH]; simpl; [done|]. by rewrite IH.
  - induction G as [|n G IH]; simpl; [done|]. by rewrite IH.
Qed.

(** C4: restoring the redirected graph from the snapshot the redirect took
    gives back the graph as it was before the redirect, so every node's base
    path and every slot's path has its former value. *)
Theorem C4_restore_after_redirect_round_trip scratch_dir G :
  let snapshot := (redirect scratch_dir G).1 in
  let G' := (redirect scratch_dir G).2 in
  restore G' snapshot = G ∧
  map base_path (restore G' snapshot) = map base_path G ∧
  map (λ node, map path (file_slots node)) (restore G' snapshot)
  = map (λ node, map path (file_slots node)) G.
Proof. simpl. by rewrite restore_redirect. Qed.

Example render_frame_success_path :
  render_frame Sample.working_render Sample.graph 3
  = (Sample.graph, inr Sample.frame3).
Proof. reflexivity. Qed.

(** C3, counterexample: when the render step raises, the unit exits with the
    exception and the nodes still point at the scratch directory. *)
Lemma C3_no_restore_when_render_raises :
  (render_frame Sample.failing_render Sample.graph 3).2
  = inl Sample.render_error ∧
  map base_path (render_frame Sample.failing_render Sample.graph 3).1
  = ["/renders/temp"; "/renders/temp"]%string ∧
  map base_path Sample.graph = ["/out/main"; "/out/data"]%string ∧
  ¬ AsStated.restored_on_every_exit Sample.failing_render Sample.graph 3.
Proof.
  repeat split; try reflexivity.
  unfold AsStated.restored_on_every_exit. vm_compute. discriminate.
Qed.

(** C3, amended: the restore runs on the normal exit path.  When the render
    step returns, the nodes are written back from the snapshot before the
    unit returns its result; when the render step raises, the exception
    leaves the unit at once and no path is written back: the base paths stay
    at the scratch directory (the slot paths were never changed). *)
Theorem C3_restore_runs_when_render_returns
    (bpy_render : list OutputNode → Z → Exn + list (string * string))
    G (frame_number : Z) :
  match bpy_render (map (set_base_path temp_output_dir) G) frame_number with
  | inr rendered_files =>
      render_frame bpy_render G frame_number =
        (G, inr {| frame := frame_number;
                   files := rendered_files;
                   original_paths := (redirect temp_output_dir G).1 |})
  | inl e =>
      render_frame bpy_render G frame_number =
        (map (set_base_path temp_output_dir) G, inl e)
  end.
Proof.
  unfold render_frame.
  pose proof (restore_redirect temp_output_dir G) as Hrt.
  rewrite redirect_spec in *. simpl in *.
  destruct (bpy_render _ frame_number); [done|]. by rewrite Hrt.
Qed.
End RedirectFacts.

(** ** Placeholder substitution *)

Section SubstitutionFacts.
Import Farm.

Lemma string_app_assoc (s1 s2 s3 : string) :
  (s1 +:+ s2) +:+ s3 = s1 +:+ (s2 +:+ s3).
Proof.
  induction s1 as [|c s1 IH]; [done|].
  change (String c ((s1 +:+ s2) +:+ s3) = String c (s1 +:+ s2 +:+ s3)).
  by rewrite IH.
Qed.

Lemma replace_app old new s1 s2 :
  PyStr.replace old new (s1 +:+ s2)
  = PyStr.replace old new s1 +:+ PyStr.replace old new s2.
Proof.
  induction s1 as [|c s1 IH]; [done|].
  change (String c s1 +:+ s2) with (String c (s1 +:+ s2)). simpl.
  destruct (Ascii.eqb c old); rewrite IH; [|done].
  by rewrite string_app_assoc.
Qed.

Lemma rfind_absent_tail c d s :
  PyStr.rfind c (String d s) = -1 → Ascii.eqb d c = false ∧ PyStr.rfind c s = -1.
Proof.
  simpl. assert (-1 ≤ PyStr.rfind c s) as Hlow.
  { clear. induction s as [|e s IH]; simpl; [lia|].
    destruct (0 <=? PyStr.rfind c s); [lia|]. destruct (Ascii.eqb e c); lia. }
  destruct (0 <=? PyStr.rfind c s) eqn:E.
  - apply Z.leb_le in E. lia.
  - apply Z.leb_gt in E. destruct (Ascii.eqb d c); [lia|]. split; [done|lia].
Qed.

(** A string without the character is left as it is. *)
Lemma replace_absent old new s :
  PyStr.rfind old s = -1 → PyStr.replace old new s = s.
Proof.
  induction s as [|c s IH]; [done|]. intros H.
  apply rfind_absent_tail in H as [Hc Hs]. simpl. rewrite Hc.
  by rewrite IH.
Qed.

(** With a placeholder of one character the substitution is the intended
    one. *)
Lemma substitute_single_placeholder frame pre post :
  PyStr.rfind "#" pre = -1 → PyStr.rfind "#" post = -1 →
  substitute_frame frame (pre +:+ String "#" post)
  = pre +:+ PyStr.format_04d frame +:+ post.
Proof.
  intros Hpre Hpost. unfold substitute_frame.
  rewrite replace_app, (replace_absent _ _ pre) by done.
  f_equal. simpl. by rewrite replace_absent.
Qed.

Lemma format_04d_width_table :
  forallb (λ n, Nat.eqb (String.length (PyStr.format_04d (Z.of_nat n))) 4)
    (seq 0 (Z.to_nat 10000)) = true.
Proof. vm_compute. reflexivity. Qed.

(** Frames up to 9999 are written with exactly four characters. *)
Lemma format_04d_width frame :
  0 ≤ frame ≤ 9999 → String.length (PyStr.format_04d frame) = 4%nat.
Proof.
  intros Hf. pose proof format_04d_width_table as Ht.
  rewrite forallb_forall in Ht.
  specialize (Ht (Z.to_nat frame)). rewrite Z2Nat.id in Ht by lia.
  apply Nat.eqb_eq, Ht, in_seq. lia.
Qed.

(** C1, on the code: a run of four placeholder characters is not replaced by
    one frame number; each of its characters is, so [main.####.exr] at frame
    7 becomes a name with sixteen digits, not [main.0007.exr]. *)
Theorem C1_placeholder_run_repeats_frame_number :
  substitute_frame 7 "main.####.exr" = "main.0007000700070007.exr" ∧
  substitute_frame 7 "main.####.exr" ≠ "main.0007.exr".
Proof. split; [reflexivity | discriminate]. Qed.

End SubstitutionFacts.

(** ** Reconciliation *)

Section ReconcileFacts.
Import Redirect Farm.
Implicit Types (frame : Z) (rel_path base : string) (slots : list SlotInfo)
  (items : PyDict.t NodeInfo) (G : list OutputNode).

Lemma find_in_slots_no_match frame rel_path base slots o :
  Forall (λ slot_info, slot_matches frame rel_path slot_info = false) slots →
  find_in_slots frame rel_path base slots o = o.
Proof.
  induction 1 as [|slot_info slots Hs _ IH]; simpl; [done|].
  unfold slot_matches in Hs. by rewrite Hs.
Qed.

(** Within a node the first matching slot decides. *)
Lemma find_in_slots_first_match frame rel_path base before slot_info after o :
  Forall (λ s, slot_matches frame rel_path s = false) before →
  slot_matches frame rel_path slot_info = true →
  find_in_slots frame rel_path base (before ++ slot_info :: after) o
  = Some (PyStr.join base (substitute_frame frame (info_path slot_info))).
Proof.
  intros Hb Hm. induction Hb as [|s before Hs _ IH]; simpl.
  - unfold slot_matches in Hm. by rewrite Hm.
  - unfold slot_matches in Hs. by rewrite Hs.
Qed.

Lemma find_in_nodes_no_match frame rel_path items :
  Forall (node_unmatched frame rel_path) items →
  find_in_nodes frame rel_path items None = None.
Proof.
  induction 1 as [|[i node_info] items Hn _ IH]; simpl; [done|].
  by rewrite find_in_slots_no_match.
Qed.

(** Across nodes the first node with a matching slot decides, and in it the
    first matching slot, provided the joined path is not the empty string
    (an empty path is false, and the search goes on). *)
Lemma find_in_nodes_first_match frame rel_path
    items_before i node_info items_after before slot_info after :
  Forall (node_unmatched frame rel_path) items_before →
  info_file_slots node_info = before ++ slot_info :: after →
  Forall (λ s, slot_matches frame rel_path s = false) before →
  slot_matches frame rel_path slot_info = true →
  PyStr.join (info_base_path node_info)
    (substitute_frame frame (info_path slot_info)) ≠ EmptyString →
  find_in_nodes frame rel_path
    (items_before ++ (i, node_info) :: items_after) None
  = Some (PyStr.join (info_base_path node_info)
            (substitute_frame frame (info_path slot_info))).
Proof.
  intros Hib Hslots Hb Hm Hne.
  induction Hib as [|[j nj] items_before Hn _ IH]; simpl.
  - rewrite Hslots, find_in_slots_first_match by done. simpl.
    by destruct (PyStr.join _ _).
  - by rewrite find_in_slots_no_match.
Qed.

(** C6, on the code, at the example of the specification.  The slot paths
    [main.####.exr] and [data.####.exr] become names with sixteen digits at
    frame 3, so neither produced file matches a slot; both go to the
    fall-back, the base path of the first node, and [data.0003.exr] is not
    resolved under the base path of node [data]. *)
Theorem C6_example_files_miss_their_slots :
  find_in_nodes 3 "main.0003.exr" Sample.snapshot None = None ∧
  find_in_nodes 3 "data.0003.exr" Sample.snapshot None = None ∧
  resolve_original_path (Sample.world []) 3 Sample.snapshot "main.0003.exr"
  = "/out/main/main.0003.exr" ∧
  resolve_original_path (Sample.world []) 3 Sample.snapshot "data.0003.exr"
  = "/out/main/data.0003.exr" ∧
  resolve_original_path (Sample.world []) 3 Sample.snapshot "data.0003.exr"
  ≠ PyStr.join (base_path Sample.data_node) "data.0003.exr".
Proof. repeat split; try reflexivity. vm_compute. discriminate. Qed.

Lemma snapshot_items_unmatched frame rel_path G : ∀ k,
  Forall (λ node, Forall (λ slot,
            same_basename rel_path (substitute_frame frame (path slot)) = false)
            (file_slots node)) G →
  Forall (node_unmatched frame rel_path)
    (zip (seq k (length G)) (map capture_node G)).
Proof.
  induction G as [|node G IH]; intros k HG; simpl; [constructor|].
  inversion HG as [|? ? Hnode Hrest]; subst. constructor; [|by apply IH].
  unfold node_unmatched. simpl. rewrite Forall_fmap.
  eapply Forall_impl; [exact Hnode|]. by intros slot Hs.
Qed.

(** C7: a produced file whose basename matches no substituted slot path, in
    any node of the graph the snapshot was taken from, is resolved under the
    base path of the first node when there is a node, and otherwise under
    the directory [modal_render_output] beside the scene file; in both cases
    the relative path is joined as it is. *)
Theorem C7_unmatched_file_goes_to_fallback (w : World) frame scratch_dir G
    rel_path :
  Forall (λ node, Forall (λ slot,
            same_basename rel_path (substitute_frame frame (path slot)) = false)
            (file_slots node)) G →
  resolve_original_path w frame (redirect scratch_dir G).1 rel_path =
    match G with
    | first_node :: _ => PyStr.join (base_path first_node) rel_path
    | [] =>
        PyStr.join (PyStr.join (blend_dir w) "modal_render_output") rel_path
    end.
Proof.
  intros HG. rewrite redirect_spec. simpl. unfold resolve_original_path.
  rewrite find_in_nodes_no_match by by apply snapshot_items_unmatched.
  simpl. destruct G as [|first_node G]; [done|]. reflexivity.
Qed.

Lemma C7_unmatched_file_goes_to_fallback_witness :
  Forall (λ node, Forall (λ slot,
            same_basename "preview.png" (substitute_frame 3 (path slot)) = false)
            (file_slots node)) Sample.graph ∧
  resolve_original_path (Sample.world []) 3
    (redirect temp_output_dir Sample.graph).1 "preview.png"
  = "/out/main/preview.png".
Proof.
  assert (Forall (λ node, Forall (λ slot,
            same_basename "preview.png" (substitute_frame 3 (path slot)) = false)
            (file_slots node)) Sample.graph) as H.
  { repeat constructor. }
  split; [exact H|].
  exact (C7_unmatched_file_goes_to_fallback (Sample.world []) 3
           temp_output_dir Sample.graph "preview.png" H).
Defined.

End ReconcileFacts.

(** ** The trace-and-exception monad *)

Section MonadFacts.
Import Farm.
Context {A B : Type}.
Implicit Types (c : M A) (k : A → M B).

Lemma trace_bind c k :
  trace (c ≫= k) =
    trace c ++ match outcome c with inr a => trace (k a) | inl _ => [] end.
Proof.
  destruct c as [tr [e|a]]; unfold trace, outcome; simpl.
  - by rewrite app_nil_r.
  - by destruct (k a).
Qed.

Lemma outcome_bind c k :
  outcome (c ≫= k) =
    match outcome c with inr a => outcome (k a) | inl e => inl e end.
Proof.
  destruct c as [tr [e|a]]; unfold trace, outcome; simpl; [done|].
  by destruct (k a).
Qed.
End MonadFacts.

(** ** Upload, submit *)

Section FarmFacts.
Import Redirect Farm.

Lemma upload_without_token w file_path dropbox_path :
  str_truthy (api_token w) = false →
  upload_to_dropbox w file_path dropbox_path =
    ([Print "Warning: DROPBOX_API_TOKEN not set, skipping Dropbox upload"],
     inr false).
Proof. intros H. unfold upload_to_dropbox. by rewrite H. Qed.

Lemma upload_never_raises w file_path dropbox_path :
  ∃ ok, outcome (upload_to_dropbox w file_path dropbox_path) = inr ok.
Proof.
  unfold upload_to_dropbox.
  destruct (negb _); [by eexists|].
  destruct (files_upload w file_path dropbox_path); by eexists.
Qed.

Lemma upload_writes_nothing w file_path dropbox_path :
  written_files (trace (upload_to_dropbox w file_path dropbox_path)) = [].
Proof.
  unfold upload_to_dropbox.
  destruct (negb _); [done|].
  by destruct (files_upload w file_path dropbox_path).
Qed.

Lemma process_files_with_function w frame items folder files :
  Forall (λ file, Observe.has_directory w frame items file = true) files →
  outcome (process_files w frame items (PyFunction (upload_to_dropbox w))
             folder files) = inr tt ∧
  map snd (written_files
             (trace (process_files w frame items
                       (PyFunction (upload_to_dropbox w)) folder files)))
  = map snd files.
Proof.
  induction 1 as [|[rel_path file_path] files Hd _ [IHo IHt]]; [done|].
  cbn [process_files]. unfold makedirs.
  unfold Observe.has_directory in Hd. simpl in Hd.
  apply negb_true_iff in Hd. rewrite Hd.
  destruct (upload_never_raises w
              (resolve_original_path w frame items rel_path)
              (PyStr.join folder
                 (PyStr.basename (resolve_original_path w frame items rel_path))))
    as [ok Hok].
  split.
  - rewrite !outcome_bind. simpl. by rewrite outcome_bind, Hok.
  - rewrite !trace_bind. simpl. rewrite outcome_bind, trace_bind, Hok. simpl.
    unfold written_files in *. rewrite app_nil_r, omap_app.
    fold (written_files (trace (upload_to_dropbox w
            (resolve_original_path w frame items rel_path)
            (PyStr.join folder
               (PyStr.basename
                  (resolve_original_path w frame items rel_path)))))).
    rewrite upload_writes_nothing. simpl. by rewrite IHt.
Qed.


Lemma elem_of_py_range s e f : f ∈ py_range s (e + 1) ↔ s ≤ f ≤ e.
Proof.
  unfold py_range. rewrite list_elem_of_fmap. split.
  - intros (i & -> & Hi). apply elem_of_seq in Hi. lia.
  - intros Hf. exists (Z.to_nat (f - s)). split; [lia|].
    apply elem_of_seq. lia.
Qed.

Lemma length_py_range s e :
  s ≤ e → length (py_range s (e + 1)) = Z.to_nat (e - s + 1).
Proof.
  intros _. unfold py_range. rewrite length_map, length_seq. f_equal. lia.
Qed.

Lemma collect_all_ok {X} (f : X → Exn + FrameResult) (xs : list X) :
  (∀ x, x ∈ xs → ∃ r, f x = inr r) →
  ∃ results, collect (map f xs) = inr results ∧
             Forall2 (λ x r, f x = inr r) xs results.
Proof.
  induction xs as [|x xs IH]; intros H; simpl.
  - exists []. by split.
  - destruct (H x) as [r Hr]; [left|]. rewrite Hr.
    destruct IH as (rs & Hc & Hall).
    { intros y Hy. apply H. by right. }
    rewrite Hc. exists (r :: rs). split; [done|]. by constructor.
Qed.

Lemma collect_one_failed {X} (f : X → Exn + FrameResult) (xs : list X) x e :
  x ∈ xs → f x = inl e → ∃ e', collect (map f xs) = inl e'.
Proof.
  intros Hx Hf. induction xs as [|y xs IH]; [by apply elem_of_nil in Hx|].
  simpl. destruct (f y) as [ey|ry] eqn:Ey; [by eexists|].
  apply elem_of_cons in Hx as [->|Hx]; [congruence|].
  destruct (IH Hx) as [e' ->]. by eexists.
Qed.

Lemma rendered_frames_map blend frames :
  rendered_frames (map (λ a : string * Z, RemoteRender a.1 a.2)
                     (map (λ frame, (blend, frame)) frames)) = frames.
Proof. induction frames as [|f fs IH]; simpl; [done|]. by rewrite IH. Qed.

Lemma written_files_map (args : list (string * Z)) :
  written_files (map (λ a : string * Z, RemoteRender a.1 a.2) args) = [].
Proof. by induction args. Qed.

Lemma process_files_no_render w frame items b folder files :
  rendered_frames (trace (process_files w frame items (PyBool b) folder files))
  = [].
Proof.
  induction files as [|[rel_path file_path] files IH]; [done|].
  cbn [process_files]. unfold makedirs.
  destruct (PyStr.is_empty _); [done|].
  rewrite !trace_bind. simpl.
  destruct b; simpl; [done|]. exact IH.
Qed.

Lemma process_results_no_render w b folder results :
  rendered_frames (trace (process_results w (PyBool b) folder results)) = [].
Proof.
  induction results as [|r rs IH]; [done|].
  cbn [process_results]. rewrite trace_bind. unfold rendered_frames in *.
  rewrite omap_app. unfold _process_rendered_files.
  pose proof (process_files_no_render w (frame r) (original_paths r) b folder
                (files r)) as H. unfold rendered_frames in H. rewrite H.
  simpl. destruct (outcome _); [done|]. exact IH.
Qed.


(** The run of a range request once the preconditions hold and the scene
    was prepared. *)
Lemma execute_range w self scene blend :
  Operator.render_type self = RANGE →
  output_nodes w ≠ [] →
  filepath w ≠ EmptyString →
  prepare_blend_file w (temp_blend_path w) = inr blend →
  let args :=
    map (λ frame, (blend, frame))
      (py_range (Operator.start_frame self) (Operator.end_frame self + 1)) in
  let head :=
    [Makedirs submitter_dir;
     SaveAsMainfile (temp_blend_path w);
     Makedirs (PyStr.dirname (PyStr.join submitter_dir "asset_tracker.db"));
     TrackerOpen (PyStr.join submitter_dir "asset_tracker.db");
     Report "INFO" "Starting render on Modal. Using File Output nodes from compositor.";
     RemotePrepare (temp_blend_path w)]
    ++ map (λ a : string * Z, RemoteRender a.1 a.2) args in
  let failed (err : Exn) :=
    [Report "ERROR" ("Error rendering on Modal: " +:+ exn_msg err);
     TrackerClose] in
  execute w self scene =
    match collect (map (λ a : string * Z, render_frame_remote w a.1 a.2) args)
    with
    | inl err => (head ++ failed err, inr CANCELLED)
    | inr results =>
        match process_results w (PyBool (Operator.upload_to_dropbox self))
                (Operator.dropbox_folder self) results with
        | (tr, inl err) => (head ++ tr ++ failed err, inr CANCELLED)
        | (tr, inr _) =>
            (head ++ tr ++
             [Report "INFO" "All frames rendered and saved to original output paths";
              TrackerClose], inr FINISHED)
        end
    end.
Proof.
  intros Hrt Hnodes Hfile Hprep args head failed.
  unfold execute, dispatch.
  destruct (output_nodes w) as [|n ns]; [done|].
  destruct (filepath w) as [|c fp] eqn:Efp; [done|].
  rewrite Hrt. unfold remote_prepare, render_frame_map. rewrite Hprep.
  simpl. fold args.
  destruct (collect _) as [err|results]; simpl.
  - subst head failed. simpl. by rewrite <- ?app_assoc.
  - destruct (process_results _ _ _ results) as [tr [err|[]]]; simpl.
    + subst head failed. simpl. by rewrite <- ?app_assoc.
    + subst head. simpl. by rewrite <- ?app_assoc.
Qed.

(** C9, on the code.  In [_process_rendered_files] the name
    [upload_to_dropbox] is the boolean parameter, so with upload requested
    the call after the first placement raises a [TypeError]: nothing is
    uploaded, the second produced file is never placed, and [execute] reports
    the error and returns CANCELLED. *)
Theorem C9_upload_call_reaches_the_flag_not_the_function :
  _process_rendered_files (Sample.world []) Sample.frame3 (PyBool true)
    "/Renders"
  = ([Makedirs "/out/main";
      WriteBytes "/out/main/main.0003.exr" "/renders/temp/main.0003.exr";
      Print "Saved file to /out/main/main.0003.exr"],
     inl (Exception "TypeError" "'bool' object is not callable")) ∧
  length (files Sample.frame3) = 2%nat ∧
  outcome (execute (Sample.world []) (Sample.operator FRAME 1 1 true)
             Sample.scene) = inr CANCELLED ∧
  error_reports (trace (execute (Sample.world [])
                          (Sample.operator FRAME 1 1 true) Sample.scene))
  = ["Error rendering on Modal: 'bool' object is not callable"].
Proof. repeat split; reflexivity. Qed.

(** C10: when the compositor has no File Output node, or the scene was never
    saved, [execute] returns CANCELLED after one ERROR report, and its trace
    holds no scene copy, no scene upload, no remote render and no upload. *)
Theorem C10_precondition_failure_cancels_before_remote_work w self scene :
  output_nodes w = [] ∨ filepath w = EmptyString →
  outcome (execute w self scene) = inr CANCELLED ∧
  (∃ msg, error_reports (trace (execute w self scene)) = [msg]) ∧
  Forall (λ ev, remote_work ev = false) (trace (execute w self scene)).
Proof.
  intros H. unfold execute.
  destruct (output_nodes w) as [|n ns] eqn:En.
  - repeat split; [by eexists | repeat constructor].
  - destruct H as [H|H]; [done|]. rewrite H.
    repeat split; [by eexists | repeat constructor].
Qed.

(** C2, amended: for a range request with [start <= end], once the
    preconditions hold and the scene was prepared, render calls are issued
    for exactly the frames [start .. end], each once.  When every call
    succeeds, one result per frame comes back, in frame order, and the files
    placed are those of reconciling these results.  When a call fails, the
    failure is not recorded for its frame: the whole request reports one
    error and returns CANCELLED, and no file of any frame is placed. *)
Theorem C2_range_issues_each_frame_and_fails_as_a_batch w self scene blend :
  Operator.render_type self = RANGE →
  Operator.start_frame self ≤ Operator.end_frame self →
  output_nodes w ≠ [] →
  filepath w ≠ EmptyString →
  prepare_blend_file w (temp_blend_path w) = inr blend →
  let s := Operator.start_frame self in
  let e := Operator.end_frame self in
  let run := execute w self scene in
  rendered_frames (trace run) = py_range s (e + 1) ∧
  (∀ f, f ∈ py_range s (e + 1) ↔ s ≤ f ≤ e) ∧
  length (py_range s (e + 1)) = Z.to_nat (e - s + 1) ∧
  ((∀ f, s ≤ f ≤ e → ∃ r, render_frame_remote w blend f = inr r) →
   ∃ results,
     Forall2 (λ f r, render_frame_remote w blend f = inr r)
       (py_range s (e + 1)) results ∧
     outcome (render_frame_map w
                (map (λ frame, (blend, frame)) (py_range s (e + 1))))
     = inr results ∧
     written_files (trace run)
     = written_files
         (trace (process_results w (PyBool (Operator.upload_to_dropbox self))
                   (Operator.dropbox_folder self) results))) ∧
  (∀ f err, s ≤ f ≤ e → render_frame_remote w blend f = inl err →
     outcome run = inr CANCELLED ∧
     written_files (trace run) = [] ∧
     ∃ msg, error_reports (trace run) = [msg]).
Proof.
  intros Hrt Hse Hnodes Hfile Hprep s e run.
  pose proof (execute_range w self scene blend Hrt Hnodes Hfile Hprep) as Hrun.
  simpl in Hrun. fold s e run in Hrun.
  split; [|split; [intros f; apply elem_of_py_range|split;
                   [by apply length_py_range|split]]].
  - rewrite Hrun. destruct (collect _) as [err|results].
    + unfold trace, rendered_frames. simpl. rewrite omap_app.
      fold (rendered_frames (map (λ a : string * Z, RemoteRender a.1 a.2)
              (map (λ frame, (blend, frame)) (py_range s (e + 1))))).
      rewrite rendered_frames_map. simpl. by rewrite app_nil_r.
    + pose proof (process_results_no_render w
        (Operator.upload_to_dropbox self) (Operator.dropbox_folder self)
        results) as Hnr.
      destruct (process_results _ _ _ results) as [tr [err|[]]];
        unfold trace, rendered_frames in *; simpl in *.
      all: rewrite !omap_app, Hnr.
      all: fold (rendered_frames (map (λ a : string * Z, RemoteRender a.1 a.2)
              (map (λ frame, (blend, frame)) (py_range s (e + 1))))).
      all: rewrite rendered_frames_map; simpl; by rewrite app_nil_r.
  - intros Hall.
    destruct (collect_all_ok (λ a : string * Z, render_frame_remote w a.1 a.2)
                (map (λ frame, (blend, frame)) (py_range s (e + 1))))
      as (results & Hc & Hf2).
    { intros a Ha. apply list_elem_of_fmap in Ha as (f & -> & Hf).
      apply Hall. by apply elem_of_py_range. }
    exists results. split; [|split].
    + apply Forall2_fmap_l in Hf2. exact Hf2.
    + exact Hc.
    + rewrite Hrun, Hc.
      destruct (process_results _ _ _ results) as [tr [err|[]]];
        unfold trace, written_files; simpl.
      all: rewrite !omap_app.
      all: fold (written_files (map (λ a : string * Z, RemoteRender a.1 a.2)
              (map (λ frame, (blend, frame)) (py_range s (e + 1))))).
      all: rewrite written_files_map; simpl; by rewrite app_nil_r.
  - intros f err Hf Herr.
    destruct (collect_one_failed
                (λ a : string * Z, render_frame_remote w a.1 a.2)
                (map (λ frame, (blend, frame)) (py_range s (e + 1)))
                (blend, f) err) as [err' Hc].
    { apply list_elem_of_fmap. exists f. split; [done|].
      by apply elem_of_py_range. }
    { exact Herr. }
    rewrite Hrun, Hc. unfold trace, outcome, written_files, error_reports.
    simpl. rewrite !omap_app.
    split; [done|]. split.
    + fold (written_files (map (λ a : string * Z, RemoteRender a.1 a.2)
              (map (λ frame, (blend, frame)) (py_range s (e + 1))))).
      by rewrite written_files_map.
    + eexists. 
      assert (∀ args : list (string * Z),
                omap (λ ev, match ev with
                            | Report level msg =>
                                if String.eqb level "ERROR" then Some msg
                                else None
                            | _ => None
                            end)
                  (map (λ a : string * Z, RemoteRender a.1 a.2) args) = [])
        as -> by (intros args; by induction args).
      reflexivity.
Qed.

Lemma C10_precondition_failure_cancels_before_remote_work_witness :
  (output_nodes Sample.blank_world = [] ∨
   filepath Sample.blank_world = EmptyString) ∧
  outcome (execute Sample.blank_world (Sample.operator RANGE 10 14 false)
             Sample.scene) = inr CANCELLED.
Proof.
  split; [left; reflexivity|].
  apply (C10_precondition_failure_cancels_before_remote_work
           Sample.blank_world (Sample.operator RANGE 10 14 false) Sample.scene).
  left. reflexivity.
Defined.

(** C2, counterexample: the range 10..14 with a remote that fails on frame
    12.  The five calls are issued and four of them succeed, yet the request
    returns CANCELLED with one error report and places no file at all, those
    of frames 10, 11, 13 and 14 included. *)
Lemma C2_failed_frame_cancels_the_whole_range :
  let w := Sample.world [12] in
  let self := Sample.operator RANGE 10 14 false in
  let run := execute w self Sample.scene in
  rendered_frames (trace run) = [10; 11; 12; 13; 14] ∧
  outcome run = inr CANCELLED ∧
  written_files (trace run) = [] ∧
  error_reports (trace run)
  = ["Error rendering on Modal: Error: render failed"] ∧
  ¬ AsStated.failure_is_per_frame w self Sample.scene.
Proof.
  repeat split; try reflexivity.
  intros H.
  destruct (H Sample.volume_blend 10
              {| frame := 10;
                 files := [("main.0010.exr", "/renders/temp/main.0010.exr")];
                 original_paths := Sample.snapshot |}
              ltac:(vm_compute; repeat constructor) eq_refl
              "main.0010.exr" "/renders/temp/main.0010.exr"
              ltac:(repeat constructor)) as [dst Hdst].
  vm_compute in Hdst. by apply elem_of_nil in Hdst.
Qed.

Lemma C2_range_issues_each_frame_and_fails_as_a_batch_witness :
  Operator.render_type (Sample.operator RANGE 10 14 false) = RANGE ∧
  Operator.start_frame (Sample.operator RANGE 10 14 false)
  ≤ Operator.end_frame (Sample.operator RANGE 10 14 false) ∧
  output_nodes (Sample.world [12]) ≠ [] ∧
  filepath (Sample.world [12]) ≠ EmptyString ∧
  prepare_blend_file (Sample.world [12]) (temp_blend_path (Sample.world [12]))
  = inr Sample.volume_blend ∧
  rendered_frames
    (trace (execute (Sample.world [12]) (Sample.operator RANGE 10 14 false)
              Sample.scene))
  = py_range 10 (14 + 1).
Proof.
  assert (Operator.start_frame (Sample.operator RANGE 10 14 false)
          ≤ Operator.end_frame (Sample.operator RANGE 10 14 false)) as Hse
    by (simpl; lia).
  assert (output_nodes (Sample.world [12]) ≠ []) as Hn by discriminate.
  assert (filepath (Sample.world [12]) ≠ EmptyString) as Hf by discriminate.
  split; [reflexivity|]. split; [exact Hse|]. split; [exact Hn|].
  split; [exact Hf|]. split; [reflexivity|].
  exact (proj1 (C2_range_issues_each_frame_and_fails_as_a_batch
                  (Sample.world [12]) (Sample.operator RANGE 10 14 false)
                  Sample.scene Sample.volume_blend eq_refl Hse Hn Hf eq_refl)).
Defined.

End FarmFacts.

(** * Further properties *)

(** ** Paths *)

Section PathFacts.

Lemma append_cons c (s t : string) : String c s +:+ t = String c (s +:+ t).
Proof. reflexivity. Qed.

Lemma rfind_lower c s : -1 ≤ PyStr.rfind c s.
Proof.
  induction s as [|d s IH]; simpl; [lia|].
  destruct (0 <=? PyStr.rfind c s); [lia|]. destruct (Ascii.eqb d c); lia.
Qed.

Lemma rfind_app c a b :
  PyStr.rfind c (a +:+ b) =
    if 0 <=? PyStr.rfind c b then Z.of_nat (String.length a) + PyStr.rfind c b
    else PyStr.rfind c a.
Proof.
  induction a as [|d a IH].
  - change (EmptyString +:+ b) with b. simpl.
    destruct (0 <=? PyStr.rfind c b) eqn:E; [lia|].
    apply Z.leb_gt in E. pose proof (rfind_lower c b). lia.
  - rewrite append_cons. cbn [PyStr.rfind String.length]. rewrite IH.
    destruct (0 <=? PyStr.rfind c b) eqn:E; [|done].
    apply Z.leb_le in E.
    rewrite (proj2 (Z.leb_le 0 (Z.of_nat (String.length a) + PyStr.rfind c b)))
      by lia.
    lia.
Qed.

Lemma drop_app_length a b k :
  PyStr.drop (String.length a + k) (a +:+ b) = PyStr.drop k b.
Proof. induction a as [|d a IH]; [done|]. rewrite append_cons. exact IH. Qed.

Lemma rfind_endswith_sep a :
  PyStr.endswith_sep a = true →
  PyStr.rfind PyStr.sep a = Z.of_nat (String.length a) - 1.
Proof.
  induction a as [|d a IH]; [done|].
  cbn [PyStr.endswith_sep PyStr.rfind String.length].
  destruct a as [|d' a'].
  - intros H. simpl. rewrite H. done.
  - intros H. specialize (IH H). rewrite IH.
    cbn [String.length].
    rewrite (proj2 (Z.leb_le 0 _)) by lia. lia.
Qed.

(** The last component of a joined path is the last component of its second
    part. *)
Lemma basename_join a b : PyStr.basename (PyStr.join a b) = PyStr.basename b.
Proof.
  unfold PyStr.join.
  destruct (PyStr.startswith_sep b) eqn:Hb; [done|].
  destruct a as [|d a]; [done|]. cbn [PyStr.is_empty orb].
  unfold PyStr.basename.
  destruct (PyStr.endswith_sep (String d a)) eqn:Ha.
  - rewrite rfind_app. destruct (0 <=? PyStr.rfind PyStr.sep b) eqn:E.
    + apply Z.leb_le in E.
      replace (Z.to_nat (Z.of_nat (String.length (String d a))
                         + PyStr.rfind PyStr.sep b + 1))
        with (String.length (String d a)
              + Z.to_nat (PyStr.rfind PyStr.sep b + 1))%nat by lia.
      apply drop_app_length.
    + apply Z.leb_gt in E. pose proof (rfind_lower PyStr.sep b).
      rewrite rfind_endswith_sep by done.
      replace (PyStr.rfind PyStr.sep b) with (-1) by lia.
      replace (Z.to_nat (Z.of_nat (String.length (String d a)) - 1 + 1))
        with (String.length (String d a) + 0)%nat by lia.
      apply drop_app_length.
  - rewrite rfind_app.
    assert (0 ≤ PyStr.rfind PyStr.sep (String PyStr.sep b)) as Hs.
    { simpl. destruct (0 <=? PyStr.rfind PyStr.sep b) eqn:E; [|lia].
      apply Z.leb_le in E. lia. }
    rewrite (proj2 (Z.leb_le 0 _)) by exact Hs.
    replace (Z.to_nat (Z.of_nat (String.length (String d a))
                       + PyStr.rfind PyStr.sep (String PyStr.sep b) + 1))
      with (String.length (String d a)
            + Z.to_nat (PyStr.rfind PyStr.sep (String PyStr.sep b) + 1))%nat
      by lia.
    rewrite drop_app_length. simpl.
    pose proof (rfind_lower PyStr.sep b).
    destruct (0 <=? PyStr.rfind PyStr.sep b) eqn:E.
    + apply Z.leb_le in E.
      replace (Z.to_nat (PyStr.rfind PyStr.sep b + 1 + 1))
        with (S (Z.to_nat (PyStr.rfind PyStr.sep b + 1))) by lia.
      done.
    + apply Z.leb_gt in E.
      by replace (PyStr.rfind PyStr.sep b) with (-1) by lia.
Qed.
End PathFacts.

Section ReconcileMore.
Import Redirect Farm.

Lemma same_basename_eq rel_path slot_path :
  same_basename rel_path slot_path = true →
  PyStr.basename rel_path = PyStr.basename slot_path.
Proof. unfold same_basename. by intros H%String.eqb_eq. Qed.

Lemma find_in_slots_basename frame rel_path base slots o :
  (∀ p, o = Some p → PyStr.basename p = PyStr.basename rel_path) →
  ∀ p, find_in_slots frame rel_path base slots o = Some p →
       PyStr.basename p = PyStr.basename rel_path.
Proof.
  intros Ho. induction slots as [|slot_info slots IH]; simpl; [exact Ho|].
  destruct (same_basename _ _) eqn:E; [|exact IH].
  intros p [= <-]. rewrite basename_join. symmetry.
  by apply same_basename_eq.
Qed.

Lemma find_in_nodes_basename frame rel_path items : ∀ o,
  (∀ p, o = Some p → PyStr.basename p = PyStr.basename rel_path) →
  ∀ p, find_in_nodes frame rel_path items o = Some p →
       PyStr.basename p = PyStr.basename rel_path.
Proof.
  induction items as [|[i node_info] items IH]; intros o Ho; simpl;
    [exact Ho|].
  pose proof (find_in_slots_basename frame rel_path
                (info_base_path node_info) (info_file_slots node_info) o Ho)
    as Hs.
  destruct (str_truthy _); [exact Hs|]. by apply IH.
Qed.

(** X9: whatever the snapshot and the frame, the path a produced file is
    placed at has the file name of the produced file: matching and both
    fall-backs keep the basename of [rel_path]. *)
Theorem X9_resolved_path_keeps_basename (w : World) frame
    (items : PyDict.t NodeInfo) rel_path :
  PyStr.basename (resolve_original_path w frame items rel_path)
  = PyStr.basename rel_path.
Proof.
  unfold resolve_original_path.
  pose proof (find_in_nodes_basename frame rel_path items None
                ltac:(intros p [=])) as H.
  destruct (find_in_nodes frame rel_path items None) as [p|] eqn:E; simpl.
  - destruct (PyStr.is_empty p) eqn:Ep; simpl; [|by apply H].
    destruct (PyDict.truthy items && PyDict.contains items 0);
      [destruct (PyDict.get items 0%nat)|]; apply basename_join.
  - destruct (PyDict.truthy items && PyDict.contains items 0);
      [destruct (PyDict.get items 0%nat)|]; apply basename_join.
Qed.

(** X10: when the nodes before a node have no matching slot, and in that
    node the slots before one slot do not match and that slot does, the file
    is placed at the join of that node's base path and the slot's substituted
    path (provided this path is not empty): later nodes and slots are never
    looked at. *)
Theorem X10_first_match_decides frame rel_path
    (items_before : PyDict.t NodeInfo) i node_info items_after
    before slot_info after :
  Forall (node_unmatched frame rel_path) items_before →
  info_file_slots node_info = before ++ slot_info :: after →
  Forall (λ s, slot_matches frame rel_path s = false) before →
  slot_matches frame rel_path slot_info = true →
  PyStr.join (info_base_path node_info)
    (substitute_frame frame (info_path slot_info)) ≠ EmptyString →
  ∀ w : World,
    resolve_original_path w frame
      (items_before ++ (i, node_info) :: items_after) rel_path
    = PyStr.join (info_base_path node_info)
        (substitute_frame frame (info_path slot_info)).
Proof.
  intros Hib Hs Hb Hm Hne w. unfold resolve_original_path.
  rewrite (find_in_nodes_first_match frame rel_path items_before i node_info
             items_after before slot_info after) by done.
  simpl. by destruct (PyStr.join _ _).
Qed.

(** X11: a slot path without [#] is used as it is, for every frame. *)
Theorem X11_template_without_placeholder frame template :
  PyStr.rfind "#" template = -1 → substitute_frame frame template = template.
Proof. intros H. by apply replace_absent. Qed.

(** X12: for a slot path with exactly one [#] and a frame in [0, 9999], the
    [#] is replaced by the frame number written with four digits. *)
Theorem X12_single_placeholder frame pre post :
  0 ≤ frame ≤ 9999 →
  PyStr.rfind "#" pre = -1 → PyStr.rfind "#" post = -1 →
  substitute_frame frame (pre +:+ String "#" post)
  = pre +:+ PyStr.format_04d frame +:+ post ∧
  String.length (PyStr.format_04d frame) = 4%nat.
Proof.
  intros Hf Hpre Hpost. split.
  - by apply substitute_single_placeholder.
  - by apply format_04d_width.
Qed.
End ReconcileMore.

Section FormatFacts.
Import Farm Observe.

Lemma format_04d_decode_table :
  forallb (λ n, match decode_04d (PyStr.format_04d (Z.of_nat n)) with
                | Some m => N.eqb m (N.of_nat n)
                | None => false
                end)
    (seq 0 (Z.to_nat 10000)) = true.
Proof. vm_compute. reflexivity. Qed.

Lemma format_04d_decode frame :
  0 ≤ frame ≤ 9999 →
  decode_04d (PyStr.format_04d frame) = Some (Z.to_N frame).
Proof.
  intros Hf. pose proof format_04d_decode_table as Ht.
  rewrite forallb_forall in Ht.
  specialize (Ht (Z.to_nat frame)). rewrite Z2Nat.id in Ht by lia.
  destruct (decode_04d (PyStr.format_04d frame)) as [m|].
  - rewrite (proj1 (N.eqb_eq _ _) (Ht ltac:(apply in_seq; lia))).
    f_equal. lia.
  - discriminate Ht. apply in_seq. lia.
Qed.

Lemma format_04d_inj f1 f2 :
  0 ≤ f1 ≤ 9999 → 0 ≤ f2 ≤ 9999 →
  PyStr.format_04d f1 = PyStr.format_04d f2 → f1 = f2.
Proof.
  intros H1 H2 Heq.
  pose proof (format_04d_decode f1 H1) as D1.
  pose proof (format_04d_decode f2 H2) as D2.
  rewrite Heq, D2 in D1. injection D1. lia.
Qed.

Lemma string_app_inj_length (a1 a2 b1 b2 : string) :
  String.length a1 = String.length a2 →
  a1 +:+ b1 = a2 +:+ b2 → a1 = a2.
Proof.
  revert a2. induction a1 as [|c a1 IH]; intros [|d a2]; try done.
  rewrite !append_cons. intros [= Hl] [= -> Ha]. f_equal. by apply IH.
Qed.

(** X13: for a slot path with at least one [#], two frames in [0, 9999] with
    the same substituted path are the same frame. *)
Theorem X13_substitution_separates_frames f1 f2 template :
  0 ≤ f1 ≤ 9999 → 0 ≤ f2 ≤ 9999 →
  0 ≤ PyStr.rfind "#" template →
  substitute_frame f1 template = substitute_frame f2 template →
  f1 = f2.
Proof.
  intros H1 H2. unfold substitute_frame.
  induction template as [|c t IH]; [simpl; lia|].
  cbn [PyStr.rfind PyStr.replace].
  destruct (Ascii.eqb c "#") eqn:Ec.
  - intros _ Heq. apply format_04d_inj; [done..|].
    eapply string_app_inj_length; [|exact Heq].
    by rewrite !format_04d_width.
  - destruct (0 <=? PyStr.rfind "#" t) eqn:E; [|lia].
    apply Z.leb_le in E. intros _ [= Heq]. by apply IH.
Qed.
End FormatFacts.

Section TrackerMore.
Context {Real : Type}.
Implicit Types (db : Tracker.Table Real) (p q h : string) (t : Real).

(** X1: recording a path does not change what is looked up for any other
    path. *)
Theorem X1_update_asset_leaves_other_paths db p q h t :
  p ≠ q →
  Tracker.get_asset_hash (Tracker.update_asset db p h t) q
  = Tracker.get_asset_hash db q.
Proof. apply update_asset_other. Qed.

(** X2: recording a path twice leaves the table as if only the second
    recording had happened, hash and modification time alike. *)
Theorem X2_update_asset_last_write_wins db p h1 h2 t1 t2 :
  Tracker.update_asset (Tracker.update_asset db p h1 t1) p h2 t2
  = Tracker.update_asset db p h2 t2.
Proof.
  unfold Tracker.update_asset, Tracker.Table in *.
  by rewrite delete_insert_eq, delete_delete_eq.
Qed.

(** X3: recordings of two different paths give the same table in either
    order. *)
Theorem X3_update_asset_commutes db p q h1 h2 t1 t2 :
  p ≠ q →
  Tracker.update_asset (Tracker.update_asset db p h1 t1) q h2 t2
  = Tracker.update_asset (Tracker.update_asset db q h2 t2) p h1 t1.
Proof.
  intros Hne. unfold Tracker.update_asset, Tracker.Table in *.
  apply map_eq. intros k.
  destruct (decide (k = p)) as [Hp|Hp]; destruct (decide (k = q)) as [Hq|Hq].
  - congruence.
  - subst k.
    by rewrite lookup_insert_ne, lookup_delete_ne, !lookup_insert_eq.
  - subst k.
    by rewrite lookup_insert_eq, lookup_insert_ne, lookup_delete_ne,
         lookup_insert_eq.
  - by rewrite !lookup_insert_ne, !lookup_delete_ne, !lookup_insert_ne,
         !lookup_delete_ne.
Qed.

End TrackerMore.

(** ** Restore *)

Section RedirectMore.
Import Redirect.
Implicit Types (G nodes : list OutputNode) (d : PyDict.t NodeInfo).
Local Open Scope nat_scope.

Lemma restore_slots_lookup slots stored : ∀ k j,
  restore_slots k slots stored !! j =
    (λ slot, match stored !! (k + j) with
             | Some slot_info => set_path (info_path slot_info) slot
             | None => slot
             end) <$> slots !! j.
Proof.
  induction slots as [|slot slots IH]; intros k j; [done|].
  destruct j as [|j]; simpl.
  - rewrite Nat.add_0_r. destruct (Nat.ltb k (length stored)) eqn:E; [done|].
    apply Nat.ltb_ge in E. by rewrite (lookup_ge_None_2 stored k E).
  - rewrite IH. by replace (S k + j) with (k + S j) by lia.
Qed.

Lemma restore_slots_length slots stored k :
  length (restore_slots k slots stored) = length slots.
Proof. revert k. induction slots as [|s slots IH]; intros k; simpl; [done|]. by rewrite IH. Qed.

Lemma restore_slots_formats slots stored : ∀ k,
  map format (restore_slots k slots stored) = map format slots.
Proof.
  induction slots as [|slot slots IH]; intros k; simpl; [done|].
  rewrite IH. f_equal.
  destruct (Nat.ltb k (length stored)); [|done]. by destruct (stored !! k).
Qed.

Lemma restore_slots_idem slots stored : ∀ k,
  restore_slots k (restore_slots k slots stored) stored
  = restore_slots k slots stored.
Proof.
  induction slots as [|slot slots IH]; intros k; simpl; [done|].
  rewrite IH. f_equal.
  destruct (Nat.ltb k (length stored)); [|done]. by destruct (stored !! k).
Qed.

Lemma restore_loop_lookup nodes d : ∀ k i,
  restore_loop k nodes d !! i =
    (λ node, match PyDict.get d (k + i) with
             | Some node_info =>
                 {| base_path := info_base_path node_info;
                    file_slots := restore_slots 0 (file_slots node)
                                    (info_file_slots node_info) |}
             | None => node
             end) <$> nodes !! i.
Proof.
  induction nodes as [|node nodes IH]; intros k i; [done|].
  destruct i as [|i]; simpl.
  - by rewrite Nat.add_0_r.
  - rewrite IH. by replace (S k + i) with (k + S i) by lia.
Qed.

(** X4: restoring twice from the same snapshot is restoring once, for any
    graph and any snapshot. *)
Theorem X4_restore_idempotent G d :
  restore (restore G d) d = restore G d.
Proof.
  unfold restore. generalize 0.
  induction G as [|node G IH]; intros k; simpl; [done|].
  rewrite IH. f_equal.
  destruct (PyDict.get d k) as [node_info|]; simpl; [|done].
  by rewrite restore_slots_idem.
Qed.

(** X5: the restore keeps the number of nodes and never writes a format
    setting, although the snapshot stores them. *)
Theorem X5_restore_keeps_shape_and_formats G d :
  length (restore G d) = length G ∧
  map (λ node, map format (file_slots node)) (restore G d)
  = map (λ node, map format (file_slots node)) G.
Proof.
  unfold restore. generalize 0.
  induction G as [|node G IH]; intros k; simpl; [done|].
  destruct (IH (S k)) as [Hl Hf]. rewrite Hl, Hf. split; [done|]. f_equal.
  destruct (PyDict.get d k) as [node_info|]; simpl; [|done].
  apply restore_slots_formats.
Qed.

Lemma restore_slots_overrides slots' slots : ∀ k stored,
  map format slots' = map format slots →
  (∀ i slot, slots !! i = Some slot →
             stored !! (k + i) = Some (capture_slot slot)) →
  restore_slots k slots' stored = slots.
Proof.
  revert slots. induction slots' as [|slot' slots' IH];
    intros [|slot slots] k stored Hf H; try done.
  simpl in Hf. injection Hf as Hf1 Hf2. simpl. f_equal.
  - specialize (H 0 slot eq_refl). rewrite Nat.add_0_r in H. rewrite H.
    destruct (Nat.ltb k (length stored)) eqn:E.
    + destruct slot', slot. simpl in *. by subst.
    + apply Nat.ltb_ge in E. by rewrite (lookup_ge_None_2 stored k E) in H.
  - apply IH; [done|]. intros i s Hs. specialize (H (S i) s Hs).
    by replace (S k + i) with (k + S i) by lia.
Qed.

(** X6: the snapshot of a graph restores its paths on any graph with the
    same nodes, slots and formats, whatever base paths and slot paths that
    graph has by then. *)
Theorem X6_restore_overrides_changed_paths scratch_dir G G' :
  Forall2 (λ node' node,
             map format (file_slots node') = map format (file_slots node))
    G' G →
  restore G' (redirect scratch_dir G).1 = G.
Proof.
  intros HF. rewrite redirect_spec. simpl. unfold restore.
  assert (∀ k d,
    (∀ i node, G !! i = Some node →
               PyDict.get d (k + i) = Some (capture_node node)) →
    restore_loop k G' d = G) as Hgen.
  { induction HF as [|node' node G' G Hn HF IH]; intros k d H; [done|].
    simpl. f_equal.
    - specialize (H 0 node eq_refl). rewrite Nat.add_0_r in H. rewrite H.
      simpl. rewrite (restore_slots_overrides _ (file_slots node)).
      + by destruct node.
      + done.
      + intros i slot Hs. simpl. by rewrite list_lookup_fmap, Hs.
    - apply IH. intros i n Hi. specialize (H (S i) n Hi).
      by replace (S k + i) with (k + S i) by lia. }
  apply Hgen. intros i node Hi. rewrite dict_get_enumerated.
  rewrite bool_decide_eq_true_2 by lia. simpl. by rewrite Nat.sub_0_r, Hi.
Qed.

(** X7: the snapshot has, under index [i], the base path and slots of the
    [i]-th node, and no entry at or beyond the number of nodes. *)
Theorem X7_snapshot_keyed_by_node_index scratch_dir G (i : nat) :
  PyDict.get (redirect scratch_dir G).1 i = capture_node <$> G !! i.
Proof.
  rewrite redirect_spec. simpl. rewrite dict_get_enumerated.
  rewrite bool_decide_eq_true_2 by lia. by rewrite Nat.sub_0_r.
Qed.

(** X8: a node whose index is not in the snapshot is left as it is; a slot
    beyond the slots stored for its node keeps its path while the node gets
    the stored base path. *)
Theorem X8_restore_guards G d (i j : nat) node :
  G !! i = Some node →
  (PyDict.get d i = None → restore G d !! i = Some node) ∧
  (∀ node_info slot,
     PyDict.get d i = Some node_info →
     file_slots node !! j = Some slot →
     length (info_file_slots node_info) ≤ j →
     ∃ node', restore G d !! i = Some node' ∧
              base_path node' = info_base_path node_info ∧
              file_slots node' !! j = Some slot).
Proof.
  intros Hi. unfold restore. rewrite restore_loop_lookup, Hi. simpl. split.
  - by intros ->.
  - intros node_info slot -> Hs Hlen. eexists. split; [done|]. simpl.
    split; [done|]. rewrite restore_slots_lookup, Hs. simpl.
    by rewrite (lookup_ge_None_2 _ j Hlen).
Qed.
End RedirectMore.

(** ** Reconciliation and submit *)

Section ProcessMore.
Import Redirect Farm Observe.

Lemma bind_pair {A B} (tr : list Event) (a : A) (k : A → M B) :
  (tr, inr a) ≫= k = (tr ++ (k a).1, (k a).2).
Proof. simpl. by destruct (k a). Qed.

(** One turn of the loop: nothing happens when the resolved path has no
    directory part; otherwise the file is placed, then the upload step and
    the remaining files follow. *)
Lemma process_files_cons w frame items u folder file rest :
  process_files w frame items u folder (file :: rest) =
    let original_path := resolve_original_path w frame items file.1 in
    if has_directory w frame items file then
      (placement w frame items file, inr tt) ≫= λ _,
        (if py_truthy u then
           py_call u original_path
             (PyStr.join folder (PyStr.basename original_path))
           ≫= λ _, mret tt
         else mret tt) ≫= λ _,
        process_files w frame items u folder rest
    else
      ([], inl (Exception "FileNotFoundError"
                  "[Errno 2] No such file or directory: ''")).
Proof.
  destruct file as [rel_path file_path]. cbn [process_files].
  unfold makedirs, has_directory. simpl.
  destruct (PyStr.is_empty _); [done|]. simpl.
  by destruct (_ ≫= _).
Qed.


Lemma process_files_flagged w frame items folder file files :
  has_directory w frame items file = true →
  process_files w frame items (PyBool true) folder (file :: files)
  = (placement w frame items file,
     inl (Exception "TypeError" "'bool' object is not callable")).
Proof. intros Hd. rewrite process_files_cons, Hd. reflexivity. Qed.

Lemma process_files_no_directory w frame items u folder file files :
  has_directory w frame items file = false →
  process_files w frame items u folder (file :: files)
  = ([], inl (Exception "FileNotFoundError"
                "[Errno 2] No such file or directory: ''")).
Proof. intros Hd. by rewrite process_files_cons, Hd. Qed.

(** X16: the module-level [upload_to_dropbox] never raises.  It returns
    [True] exactly when the token is set and the upload did not fail, an
    upload is recorded exactly then, and without a token it only prints the
    warning. *)
Theorem X16_upload_to_dropbox_result w file_path dropbox_path :
  let ok :=
    str_truthy (api_token w)
    && bool_decide (files_upload w file_path dropbox_path = None) in
  outcome (upload_to_dropbox w file_path dropbox_path) = inr ok ∧
  (DropboxUpload file_path dropbox_path
     ∈ trace (upload_to_dropbox w file_path dropbox_path) ↔ ok = true) ∧
  (str_truthy (api_token w) = false →
   trace (upload_to_dropbox w file_path dropbox_path)
   = [Print "Warning: DROPBOX_API_TOKEN not set, skipping Dropbox upload"]).
Proof.
  unfold upload_to_dropbox.
  destruct (str_truthy (api_token w)); simpl.
  - destruct (files_upload w file_path dropbox_path) as [e|]; simpl.
    + split; [done|]. split; [|done]. split; [|done].
      intros H. apply list_elem_of_singleton in H. done.
    + split; [done|]. split; [|done]. split; [done|]. intros _. left.
  - split; [done|]. split; [|done]. split; [|done].
    intros H. apply list_elem_of_singleton in H. done.
Qed.


(** X15: with the upload flag set, a result without files is processed
    without effect, and a result whose first file resolves to a path with a
    directory part stops after that file was placed, with a [TypeError]. *)
Theorem X15_process_with_upload_flag w frame items folder file files :
  has_directory w frame items file = true →
  process_files w frame items (PyBool true) folder []
  = ([], inr tt) ∧
  process_files w frame items (PyBool true) folder (file :: files)
  = (placement w frame items file,
     inl (Exception "TypeError" "'bool' object is not callable")).
Proof. intros Hd. split; [done|]. by apply process_files_flagged. Qed.

(** X27: a produced file whose resolved path has no directory part stops
    reconciliation at [os.makedirs] with a [FileNotFoundError], before that
    file or any later one is copied, printed or uploaded, whatever the upload
    argument is. *)
Theorem X27_file_without_directory_stops_reconciliation w frame items
    (upload_to_dropbox : PyVal) folder file files :
  has_directory w frame items file = false →
  process_files w frame items upload_to_dropbox folder (file :: files)
  = ([], inl (Exception "FileNotFoundError"
                "[Errno 2] No such file or directory: ''")).
Proof. apply process_files_no_directory. Qed.
End ProcessMore.

Section ExecuteMore.
Import Redirect Farm Observe.

Lemma execute_ready w self scene :
  output_nodes w ≠ [] → filepath w ≠ EmptyString →
  execute w self scene =
    let body :=
      try_except (dispatch w self scene (temp_blend_path w))
        (λ err, (failure_tail err, inr CANCELLED)) in
    (preamble w ++ body.1, body.2).
Proof.
  intros Hn Hf. unfold execute.
  destruct (output_nodes w) as [|n ns]; [done|].
  destruct (filepath w) as [|c fp] eqn:Efp; [done|].
  cbn [PyStr.is_empty]. simpl.
  by destruct (try_except _ _).
Qed.

Lemma quiet_bind {A B} (c : M A) (k : A → M B) :
  Forall (λ ev, quiet ev = true) (trace c) →
  (∀ a, Forall (λ ev, quiet ev = true) (trace (k a))) →
  Forall (λ ev, quiet ev = true) (trace (c ≫= k)).
Proof.
  intros Hc Hk. rewrite trace_bind. apply Forall_app. split; [done|].
  destruct (outcome c); [constructor|apply Hk].
Qed.

Lemma quiet_process_files w frame items b folder files :
  Forall (λ ev, quiet ev = true)
    (trace (process_files w frame items (PyBool b) folder files)).
Proof.
  induction files as [|file files IH]; [constructor|].
  rewrite process_files_cons. simpl.
  destruct (has_directory w frame items file); [|constructor].
  destruct b.
  - repeat constructor.
  - unfold trace in *. simpl.
    destruct (process_files _ _ _ _ _ files) as [tr r]. simpl in *.
    by repeat (constructor; [done|]).
Qed.

Lemma quiet_process_results w b folder results :
  Forall (λ ev, quiet ev = true)
    (trace (process_results w (PyBool b) folder results)).
Proof.
  induction results as [|r rs IH]; [constructor|].
  cbn [process_results]. apply quiet_bind; [|by intros _].
  apply quiet_process_files.
Qed.

Lemma quiet_renders (args : list (string * Z)) :
  Forall (λ ev, quiet ev = true)
    (map (λ a : string * Z, RemoteRender a.1 a.2) args).
Proof. induction args; by constructor. Qed.

Lemma quiet_no_error_report tr :
  Forall (λ ev, quiet ev = true) tr → error_reports tr = [].
Proof.
  induction 1 as [|ev tr Hq _ IH]; [done|].
  destruct ev; try exact IH. simpl in Hq.
  unfold error_reports in *. simpl.
  by destruct (String.eqb level "ERROR").
Qed.

Lemma quiet_no_tracker_event tr :
  Forall (λ ev, quiet ev = true) tr → tracker_events tr = [].
Proof.
  induction 1 as [|ev tr Hq _ IH]; [done|].
  destruct ev; try exact IH; done.
Qed.

(** The [try] block ends in one of two ways: it closes the tracker and
    returns FINISHED, or it raises before closing it. *)
Lemma dispatch_shape w self scene temp_blend :
  ∃ tr, Forall (λ ev, quiet ev = true) tr ∧
    (dispatch w self scene temp_blend = (tr ++ [TrackerClose], inr FINISHED) ∨
     ∃ err, dispatch w self scene temp_blend = (tr, inl err)).
Proof.
  assert (∀ c : M unit, Forall (λ ev, quiet ev = true) (trace c) →
    ∃ tr, Forall (λ ev, quiet ev = true) tr ∧
      (c ≫= (λ _, emit TrackerClose ≫= λ _, mret FINISHED)
       = (tr ++ [TrackerClose], inr FINISHED) ∨
       ∃ err, c ≫= (λ _, emit TrackerClose ≫= λ _, mret FINISHED)
              = (tr, inl err))) as Hclose.
  { intros [tr [err|[]]] Hq; exists tr; (split; [exact Hq|]).
    - right. by exists err.
    - left. reflexivity. }
  unfold dispatch, remote_prepare.
  destruct (prepare_blend_file w temp_blend) as [err|blend].
  { exists [RemotePrepare temp_blend]. split; [by repeat constructor|].
    right. by exists err. }
  rewrite bind_pair.
  match goal with
  | |- context [ (?c ≫= λ _, emit TrackerClose ≫= λ _, mret FINISHED) ] =>
      destruct (Hclose c) as (tr & Hq & Hcase)
  end.
  { destruct (Operator.render_type self).
    - apply quiet_bind.
      + unfold remote_render, trace. simpl. by repeat constructor.
      + intros result. apply quiet_bind; [|intros _; by repeat constructor].
        apply quiet_process_files.
    - apply quiet_bind; [apply quiet_renders|].
      intros results. apply quiet_bind; [|intros _; by repeat constructor].
      apply quiet_process_results.
    - apply quiet_bind; [apply quiet_renders|].
      intros results. apply quiet_bind; [|intros _; by repeat constructor].
      apply quiet_process_results. }
  exists (RemotePrepare temp_blend :: tr). split; [by constructor|].
  destruct Hcase as [-> | [err ->]]; [left|right; exists err]; reflexivity.
Qed.

(** X17: [execute] never raises.  It returns FINISHED without any ERROR
    report, or CANCELLED with exactly one; and when both precondition checks
    pass the tracker is opened once and closed once after it, otherwise it
    is not opened at all. *)
Theorem X17_execute_returns_and_closes_tracker w self scene :
  let run := execute w self scene in
  (outcome run = inr FINISHED ∧ error_reports (trace run) = [] ∨
   outcome run = inr CANCELLED ∧ ∃ msg, error_reports (trace run) = [msg]) ∧
  tracker_events (trace run) =
    match output_nodes w with
    | [] => []
    | _ => if PyStr.is_empty (filepath w) then [] else [true; false]
    end.
Proof.
  simpl. destruct (output_nodes w) as [|n ns] eqn:En.
  { unfold execute. rewrite En. split; [right; split; [done|by eexists]|done]. }
  destruct (filepath w) as [|c fp] eqn:Ef.
  { unfold execute. rewrite En, Ef.
    split; [right; split; [done|by eexists]|done]. }
  rewrite execute_ready by (rewrite ?En, ?Ef; done).
  destruct (dispatch_shape w self scene (temp_blend_path w))
    as (tr & Hq & [-> | [err ->]]); unfold trace, outcome; simpl.
  - unfold error_reports, tracker_events. rewrite !omap_app.
    fold (error_reports tr) (tracker_events tr).
    rewrite quiet_no_error_report, quiet_no_tracker_event by done.
    split; [by left|done].
  - unfold error_reports, tracker_events. rewrite !omap_app.
    fold (error_reports tr) (tracker_events tr).
    rewrite quiet_no_error_report, quiet_no_tracker_event by done.
    split; [right; split; [done|by eexists]|done].
Qed.

(** The property [gpu_enabled] of the operator is never read. *)
Lemma gpu_enabled_is_ignored w self scene b :
  execute w (with_gpu_enabled b self) scene = execute w self scene.
Proof. reflexivity. Qed.

(** X19: when the scene upload fails, no render call is issued: the run
    reports the error, closes the tracker and returns CANCELLED, whatever
    the render type. *)
Theorem X19_prepare_failure_cancels w self scene err :
  output_nodes w ≠ [] → filepath w ≠ EmptyString →
  prepare_blend_file w (temp_blend_path w) = inl err →
  execute w self scene
  = (preamble w ++ [RemotePrepare (temp_blend_path w)] ++ failure_tail err,
     inr CANCELLED).
Proof.
  intros Hn Hf Hp. rewrite execute_ready by done.
  unfold dispatch, remote_prepare. rewrite Hp. reflexivity.
Qed.

(** The first and last frame of a request that is not a single frame. *)
Lemma dispatch_frames w self scene temp_blend blend :
  Operator.render_type self ≠ FRAME →
  prepare_blend_file w temp_blend = inr blend →
  let bounds :=
    match Operator.render_type self with
    | ANIMATION => (Scene.frame_start scene, Scene.frame_end scene)
    | _ => (Operator.start_frame self, Operator.end_frame self)
    end in
  let args :=
    map (λ frame, (blend, frame)) (py_range bounds.1 (bounds.2 + 1)) in
  let renders := map (λ a : string * Z, RemoteRender a.1 a.2) args in
  dispatch w self scene temp_blend =
    match collect (map (λ a : string * Z, render_frame_remote w a.1 a.2) args)
    with
    | inl err => (RemotePrepare temp_blend :: renders, inl err)
    | inr results =>
        match process_results w (PyBool (Operator.upload_to_dropbox self))
                (Operator.dropbox_folder self) results with
        | (tr, inl err) => (RemotePrepare temp_blend :: renders ++ tr, inl err)
        | (tr, inr _) =>
            (RemotePrepare temp_blend :: renders ++ tr ++
             [Report "INFO" "All frames rendered and saved to original output paths";
              TrackerClose], inr FINISHED)
        end
    end.
Proof.
  intros Hrt Hp. unfold dispatch, remote_prepare, render_frame_map.
  rewrite Hp.
  destruct (Operator.render_type self); [done| |]; simpl.
  all: destruct (collect _) as [err|results]; simpl; [done|].
  all: destruct (process_results _ _ _ results) as [tr [err|[]]]; simpl;
    by rewrite <- ?app_assoc.
Qed.

(** X20: an ANIMATION request renders the frames [frame_start .. frame_end]
    of the scene; [start_frame] and [end_frame] of the operator play no
    part. *)
Theorem X20_animation_uses_scene_range w self scene blend :
  Operator.render_type self = ANIMATION →
  output_nodes w ≠ [] → filepath w ≠ EmptyString →
  prepare_blend_file w (temp_blend_path w) = inr blend →
  rendered_frames (trace (execute w self scene))
  = py_range (Scene.frame_start scene) (Scene.frame_end scene + 1).
Proof.
  intros Hrt Hn Hf Hp. rewrite execute_ready by done.
  rewrite (dispatch_frames w self scene _ blend) by (rewrite ?Hrt; done).
  rewrite Hrt. simpl.
  destruct (collect _) as [err|results].
  - unfold trace, rendered_frames. simpl. rewrite omap_app.
    fold (rendered_frames (map (λ a : string * Z, RemoteRender a.1 a.2)
            (map (λ frame, (blend, frame))
               (py_range (Scene.frame_start scene)
                  (Scene.frame_end scene + 1))))).
    rewrite rendered_frames_map. simpl. by rewrite app_nil_r.
  - pose proof (process_results_no_render w
      (Operator.upload_to_dropbox self) (Operator.dropbox_folder self)
      results) as Hnr.
    destruct (process_results _ _ _ results) as [tr [err|[]]];
      unfold trace, rendered_frames in *; simpl in *.
    all: rewrite !omap_app, Hnr.
    all: fold (rendered_frames (map (λ a : string * Z, RemoteRender a.1 a.2)
            (map (λ frame, (blend, frame))
               (py_range (Scene.frame_start scene)
                  (Scene.frame_end scene + 1))))).
    all: rewrite rendered_frames_map; simpl; by rewrite !app_nil_r.
Qed.

Lemma py_range_empty start stop : stop ≤ start → py_range start stop = [].
Proof.
  intros H. unfold py_range.
  by replace (Z.to_nat (stop - start)) with 0%nat by lia.
Qed.

(** X21: a RANGE request with [end_frame < start_frame] uploads the scene,
    issues no render call, places no file and returns FINISHED. *)
Theorem X21_empty_range_finishes_without_rendering w self scene blend :
  Operator.render_type self = RANGE →
  Operator.end_frame self < Operator.start_frame self →
  output_nodes w ≠ [] → filepath w ≠ EmptyString →
  prepare_blend_file w (temp_blend_path w) = inr blend →
  execute w self scene
  = (preamble w ++
     [RemotePrepare (temp_blend_path w);
      Report "INFO" "All frames rendered and saved to original output paths";
      TrackerClose],
     inr FINISHED).
Proof.
  intros Hrt Hlt Hn Hf Hp. rewrite execute_ready by done.
  rewrite (dispatch_frames w self scene _ blend) by (rewrite ?Hrt; done).
  rewrite Hrt. simpl. rewrite py_range_empty by lia. reflexivity.
Qed.

(** X22: a FRAME request issues one render call, for the current frame of
    the scene; when it fails the run is cancelled with nothing placed. *)
Theorem X22_single_frame_renders_current_frame w self scene blend :
  Operator.render_type self = FRAME →
  output_nodes w ≠ [] → filepath w ≠ EmptyString →
  prepare_blend_file w (temp_blend_path w) = inr blend →
  let run := execute w self scene in
  rendered_frames (trace run) = [Scene.frame_current scene] ∧
  (∀ err,
     render_frame_remote w blend (Scene.frame_current scene) = inl err →
     run = (preamble w ++
            [RemotePrepare (temp_blend_path w);
             RemoteRender blend (Scene.frame_current scene)]
            ++ failure_tail err, inr CANCELLED)).
Proof.
  intros Hrt Hn Hf Hp. simpl. rewrite execute_ready by done.
  unfold dispatch, remote_prepare, remote_render. rewrite Hp, Hrt. simpl.
  destruct (render_frame_remote w blend (Scene.frame_current scene))
    as [err|result] eqn:Er.
  - split; [done|]. by intros ? [= <-].
  - split; [|done]. simpl. unfold _process_rendered_files.
    pose proof (process_files_no_render w (frame result)
      (original_paths result) (Operator.upload_to_dropbox self)
      (Operator.dropbox_folder self) (files result)) as Hnr.
    destruct (process_files _ _ _ _ _ _) as [tr [err|[]]];
      unfold trace, rendered_frames in *; simpl in *.
    all: rewrite ?omap_app, Hnr; done.
Qed.



End ExecuteMore.

(** ** Compositor *)

Section CompositorFacts.
Import Redirect Farm Compositor.
Context {Node : Type} (node_type : Node → string).
Implicit Types (nodes acc : list Node) (scenes : list (Scene Node)).

Lemma scan_nodes_filter nodes : ∀ acc,
  scan_nodes node_type nodes acc = acc ++ List.filter (is_output node_type) nodes.
Proof.
  induction nodes as [|node nodes IH]; intros acc; simpl.
  - by rewrite app_nil_r.
  - unfold is_output at 1. destruct (String.eqb _ _); rewrite IH; [|done].
    by rewrite <- app_assoc.
Qed.

Lemma scan_scenes_flat_map scenes : ∀ acc,
  scan_scenes node_type scenes acc = acc ++ flat_map (scene_outputs node_type) scenes.
Proof.
  induction scenes as [|scene scenes IH]; intros acc; simpl.
  - by rewrite app_nil_r.
  - unfold scene_outputs at 1.
    destruct (node_tree scene) as [nodes|]; [|by rewrite IH].
    destruct (use_nodes scene); [|by rewrite IH].
    by rewrite IH, scan_nodes_filter, <- app_assoc.
Qed.

(** X24: [get_file_output_nodes] returns, in scene order and then node
    order, the nodes of type OUTPUT_FILE of the scenes that have a node tree
    and use it; a node of any other scene or type is never returned. *)
Theorem X24_output_nodes_in_scene_order scenes :
  get_file_output_nodes node_type scenes = flat_map (scene_outputs node_type) scenes ∧
  ∀ node,
    node ∈ get_file_output_nodes node_type scenes ↔
    ∃ scene nodes,
      scene ∈ scenes ∧ node_tree scene = Some nodes ∧
      use_nodes scene = true ∧ node ∈ nodes ∧
      node_type node = "OUTPUT_FILE"%string.
Proof.
  unfold get_file_output_nodes. rewrite scan_scenes_flat_map. simpl.
  split; [done|]. intros node. rewrite list_elem_of_In, in_flat_map. split.
  - intros (scene & Hs & Hn). unfold scene_outputs in Hn.
    destruct (node_tree scene) as [nodes|] eqn:Et; [|done].
    destruct (use_nodes scene) eqn:Eu; [|done].
    apply filter_In in Hn as [Hn Ho]. exists scene, nodes.
    repeat split; try done.
    + by apply list_elem_of_In.
    + by apply list_elem_of_In.
    + by apply String.eqb_eq.
  - intros (scene & nodes & Hs & Et & Eu & Hn & Ho). exists scene.
    split; [by apply list_elem_of_In|]. unfold scene_outputs.
    rewrite Et, Eu. apply filter_In. split; [by apply list_elem_of_In|].
    by apply String.eqb_eq.
Qed.
End CompositorFacts.

Section CompositorOff.
Import Redirect Farm Compositor.

(** X25: when no scene uses its compositor, the File Output nodes that
    exist do not count: [execute] reports that none was found and returns
    CANCELLED. *)
Theorem X25_compositor_switched_off_cancels
    (node_type : OutputNode → string) (scenes : list (Scene OutputNode))
    (w : World) self scene :
  output_nodes w = get_file_output_nodes node_type scenes →
  Forall (λ sc, use_nodes sc = false) scenes →
  execute w self scene
  = ([Report "ERROR" "No File Output nodes found in the compositor. Please set up your output in the compositor first."],
     inr CANCELLED).
Proof.
  intros Hw Hoff. unfold execute.
  assert (get_file_output_nodes node_type scenes = []) as Hnil.
  { clear Hw. unfold get_file_output_nodes. rewrite scan_scenes_flat_map.
    simpl. induction Hoff as [|sc scenes Hsc _ IH]; [done|]. simpl.
    rewrite IH. unfold scene_outputs. rewrite Hsc.
    by destruct (node_tree sc). }
  by rewrite Hw, Hnil.
Qed.

(** X26: with the GPU requested and the Cycles add-on present,
    [configure_rendering] selects Cycles, CUDA and the GPU, switches on every
    device of the reloaded list (the CPU ones too) and prints one line per
    device. *)
Theorem X26_configure_gpu_uses_every_device get_devices ctx prefs :
  cycles_addon ctx = Some prefs →
  let reloaded :=
    get_devices {| compute_device_type := "CUDA"; devices := devices prefs |} in
  let ctx' := (configure_rendering get_devices ctx true).1 in
  engine ctx' = "CYCLES"%string ∧ cycles_device ctx' = "GPU"%string ∧
  (∃ prefs',
     cycles_addon ctx' = Some prefs' ∧
     compute_device_type prefs' = "CUDA"%string ∧
     Forall (λ dev, dev_use dev = true) (devices prefs') ∧
     map dev_id (devices prefs') = map dev_id reloaded) ∧
  (configure_rendering get_devices ctx true).2
  = (map (λ dev, device_line (set_use dev)) reloaded, inr tt).
Proof.
  intros Ha. unfold configure_rendering. simpl. rewrite Ha. simpl.
  repeat split.
  - eexists. repeat split.
    + apply Forall_fmap. by apply Forall_true.
    + simpl. rewrite <- list_fmap_compose. done.
  - by rewrite <- list_fmap_compose.
Qed.

End CompositorOff.

(** ** Instances *)

Section Instances.
Import Redirect Farm Compositor Observe.

Lemma X1_update_asset_leaves_other_paths_witness :
  "a.exr"%string ≠ "b.exr"%string ∧
  Tracker.get_asset_hash
    (Tracker.update_asset (Tracker.create (Real:=Z)) "a.exr" "d41d8" 7)
    "b.exr"
  = Tracker.get_asset_hash (Tracker.create (Real:=Z)) "b.exr".
Proof.
  assert ("a.exr"%string ≠ "b.exr"%string) as Hne by discriminate.
  split; [exact Hne|].
  exact (X1_update_asset_leaves_other_paths Tracker.create "a.exr" "b.exr"
           "d41d8" 7 Hne).
Defined.

Lemma X3_update_asset_commutes_witness :
  "a.exr"%string ≠ "b.exr"%string ∧
  Tracker.update_asset
    (Tracker.update_asset (Tracker.create (Real:=Z)) "a.exr" "d41d8" 7)
    "b.exr" "9e107" 9
  = Tracker.update_asset
      (Tracker.update_asset (Tracker.create (Real:=Z)) "b.exr" "9e107" 9)
      "a.exr" "d41d8" 7.
Proof.
  assert ("a.exr"%string ≠ "b.exr"%string) as Hne by discriminate.
  split; [exact Hne|].
  exact (X3_update_asset_commutes Tracker.create "a.exr" "b.exr"
           "d41d8" "9e107" 7 9 Hne).
Defined.

Lemma X6_restore_overrides_changed_paths_witness :
  Forall2 (λ node' node,
             map format (file_slots node') = map format (file_slots node))
    MoreSamples.scrambled_graph Sample.graph ∧
  restore MoreSamples.scrambled_graph
    (redirect temp_output_dir Sample.graph).1 = Sample.graph.
Proof.
  assert (Forall2 (λ node' node,
             map format (file_slots node') = map format (file_slots node))
            MoreSamples.scrambled_graph Sample.graph) as H.
  { repeat constructor. }
  split; [exact H|].
  exact (X6_restore_overrides_changed_paths temp_output_dir Sample.graph
           MoreSamples.scrambled_graph H).
Defined.

Lemma X8_restore_guards_witness :
  Sample.graph !! 1%nat = Some Sample.data_node ∧
  (PyDict.get [(0%nat, capture_node Sample.main_node)] 1 = None →
   restore Sample.graph [(0%nat, capture_node Sample.main_node)] !! 1%nat
   = Some Sample.data_node).
Proof.
  split; [reflexivity|].
  exact (proj1 (X8_restore_guards Sample.graph
                  [(0%nat, capture_node Sample.main_node)] 1 0
                  Sample.data_node eq_refl)).
Defined.

Lemma X10_first_match_decides_witness :
  Forall (node_unmatched 3 "beauty.0003.exr") [(0%nat, MoreSamples.depth_info)] ∧
  slot_matches 3 "beauty.0003.exr" (MoreSamples.slot_info "alpha.#.exr")
  = false ∧
  slot_matches 3 "beauty.0003.exr" (MoreSamples.slot_info "beauty.#.exr")
  = true ∧
  slot_matches 3 "beauty.0003.exr" (MoreSamples.slot_info "sub/beauty.#.exr")
  = true ∧
  resolve_original_path (Sample.world []) 3 MoreSamples.three_nodes
    "beauty.0003.exr"
  = "/out/beauty/beauty.0003.exr"%string.
Proof.
  assert (Forall (node_unmatched 3 "beauty.0003.exr")
            [(0%nat, MoreSamples.depth_info)]) as Hbefore.
  { repeat constructor. }
  assert (Forall (λ s, slot_matches 3 "beauty.0003.exr" s = false)
            [MoreSamples.slot_info "alpha.#.exr"]) as Hslots.
  { repeat constructor. }
  split; [exact Hbefore|]. repeat (split; [reflexivity|]).
  refine (X10_first_match_decides 3 "beauty.0003.exr"
            [(0%nat, MoreSamples.depth_info)] 1%nat MoreSamples.layered_info
            [(2%nat, MoreSamples.late_info)]
            [MoreSamples.slot_info "alpha.#.exr"]
            (MoreSamples.slot_info "beauty.#.exr")
            [MoreSamples.slot_info "sub/beauty.#.exr"]
            Hbefore eq_refl Hslots eq_refl _ (Sample.world [])).
  vm_compute. discriminate.
Defined.

Lemma X11_template_without_placeholder_witness :
  PyStr.rfind "#" "rgba" = -1 ∧ substitute_frame 3 "rgba" = "rgba"%string.
Proof.
  split; [reflexivity|].
  exact (X11_template_without_placeholder 3 "rgba" eq_refl).
Defined.

Lemma X12_single_placeholder_witness :
  0 ≤ 7 ≤ 9999 ∧
  substitute_frame 7 ("main." +:+ String "#" ".exr")
  = ("main." +:+ PyStr.format_04d 7 +:+ ".exr")%string.
Proof.
  assert (0 ≤ 7 ≤ 9999) as Hf by lia.
  split; [exact Hf|].
  exact (proj1 (X12_single_placeholder 7 "main." ".exr" Hf eq_refl eq_refl)).
Defined.

Lemma X13_substitution_separates_frames_witness :
  0 ≤ 7 ≤ 9999 ∧ 0 ≤ PyStr.rfind "#" "main.####.exr" ∧ 7 = 7.
Proof.
  assert (0 ≤ 7 ≤ 9999) as Hf by lia.
  assert (0 ≤ PyStr.rfind "#" "main.####.exr") as Hr by (vm_compute; discriminate).
  split; [exact Hf|]. split; [exact Hr|].
  exact (X13_substitution_separates_frames 7 7 "main.####.exr" Hf Hf Hr
           eq_refl).
Defined.

Lemma X19_prepare_failure_cancels_witness :
  prepare_blend_file MoreSamples.unprepared_world
    (temp_blend_path MoreSamples.unprepared_world)
  = inl MoreSamples.upload_error ∧
  outcome (execute MoreSamples.unprepared_world
             (Sample.operator RANGE 10 14 false) Sample.scene)
  = inr CANCELLED.
Proof.
  split; [reflexivity|].
  rewrite (X19_prepare_failure_cancels MoreSamples.unprepared_world
             (Sample.operator RANGE 10 14 false) Sample.scene
             MoreSamples.upload_error
             ltac:(discriminate) ltac:(discriminate) eq_refl).
  reflexivity.
Defined.

Lemma X20_animation_uses_scene_range_witness :
  Operator.render_type (Sample.operator ANIMATION 10 14 false) = ANIMATION ∧
  rendered_frames
    (trace (execute (Sample.world []) (Sample.operator ANIMATION 10 14 false)
              Sample.scene))
  = py_range 1 (4 + 1).
Proof.
  split; [reflexivity|].
  exact (X20_animation_uses_scene_range (Sample.world [])
           (Sample.operator ANIMATION 10 14 false) Sample.scene
           Sample.volume_blend eq_refl
           ltac:(discriminate) ltac:(discriminate) eq_refl).
Defined.

Lemma X21_empty_range_finishes_without_rendering_witness :
  Operator.end_frame (Sample.operator RANGE 14 10 false)
  < Operator.start_frame (Sample.operator RANGE 14 10 false) ∧
  outcome (execute (Sample.world []) (Sample.operator RANGE 14 10 false)
             Sample.scene) = inr FINISHED.
Proof.
  assert (Operator.end_frame (Sample.operator RANGE 14 10 false)
          < Operator.start_frame (Sample.operator RANGE 14 10 false)) as Hlt
    by (simpl; lia).
  split; [exact Hlt|].
  rewrite (X21_empty_range_finishes_without_rendering (Sample.world [])
             (Sample.operator RANGE 14 10 false) Sample.scene
             Sample.volume_blend eq_refl Hlt
             ltac:(discriminate) ltac:(discriminate) eq_refl).
  reflexivity.
Defined.

Lemma X22_single_frame_renders_current_frame_witness :
  Operator.render_type (Sample.operator FRAME 10 14 false) = FRAME ∧
  rendered_frames
    (trace (execute (Sample.world []) (Sample.operator FRAME 10 14 false)
              Sample.scene)) = [3].
Proof.
  split; [reflexivity|].
  exact (proj1 (X22_single_frame_renders_current_frame (Sample.world [])
                  (Sample.operator FRAME 10 14 false) Sample.scene
                  Sample.volume_blend eq_refl
                  ltac:(discriminate) ltac:(discriminate) eq_refl)).
Defined.


Lemma X25_compositor_switched_off_cancels_witness :
  Forall (λ sc : Scene OutputNode, use_nodes sc = false)
    MoreSamples.idle_scenes ∧
  outcome (execute Sample.blank_world (Sample.operator FRAME 1 1 false)
             Sample.scene) = inr CANCELLED.
Proof.
  assert (Forall (λ sc : Scene OutputNode, use_nodes sc = false)
            MoreSamples.idle_scenes) as Hoff by (repeat constructor).
  split; [exact Hoff|].
  rewrite (X25_compositor_switched_off_cancels MoreSamples.always_output
             MoreSamples.idle_scenes Sample.blank_world
             (Sample.operator FRAME 1 1 false) Sample.scene eq_refl Hoff).
  reflexivity.
Defined.

Lemma X26_configure_gpu_uses_every_device_witness :
  cycles_addon MoreSamples.worker_ctx = Some MoreSamples.cycles_prefs ∧
  cycles_device (configure_rendering devices MoreSamples.worker_ctx true).1
  = "GPU"%string.
Proof.
  split; [reflexivity|].
  exact (proj1 (proj2 (X26_configure_gpu_uses_every_device devices
                         MoreSamples.worker_ctx MoreSamples.cycles_prefs
                         eq_refl))).
Defined.



Lemma X15_process_with_upload_flag_witness :
  has_directory (Sample.world []) 3 Sample.snapshot
    ("main.0003.exr", "/renders/temp/main.0003.exr")%string = true ∧
  process_files (Sample.world []) 3 Sample.snapshot (PyBool true) "/Renders"
    (files Sample.frame3)
  = ([Makedirs "/out/main";
      WriteBytes "/out/main/main.0003.exr" "/renders/temp/main.0003.exr";
      Print "Saved file to /out/main/main.0003.exr"],
     inl (Exception "TypeError" "'bool' object is not callable")).
Proof.
  split; [reflexivity|].
  exact (proj2 (X15_process_with_upload_flag (Sample.world []) 3
                  Sample.snapshot "/Renders"
                  ("main.0003.exr", "/renders/temp/main.0003.exr")%string
                  [("data.0003.exr", "/renders/temp/data.0003.exr")%string]
                  eq_refl)).
Defined.

Lemma X27_file_without_directory_stops_reconciliation_witness :
  resolve_original_path (Sample.world []) 3 MoreSamples.flat_snapshot "a.exr"
  = "a.exr"%string ∧
  has_directory (Sample.world []) 3 MoreSamples.flat_snapshot
    ("a.exr", "/renders/temp/a.exr")%string = false ∧
  process_files (Sample.world []) 3 MoreSamples.flat_snapshot (PyBool false)
    "/Renders"
    [("a.exr", "/renders/temp/a.exr"); ("b.exr", "/renders/temp/b.exr")]%string
  = ([], inl (Exception "FileNotFoundError"
                "[Errno 2] No such file or directory: ''")).
Proof.
  split; [reflexivity|]. split; [reflexivity|].
  exact (X27_file_without_directory_stops_reconciliation (Sample.world []) 3
           MoreSamples.flat_snapshot (PyBool false) "/Renders"
           ("a.exr", "/renders/temp/a.exr")%string
           [("b.exr", "/renders/temp/b.exr")%string] eq_refl).
Defined.

End Instances.
